(** * m365py: notification decoding and frame reassembly

    A shallow embedding of [m365py.py]: the telemetry decoder
    [M365Delegate.handle_message], the reassembly loop
    [M365Delegate.handleNotification] and the cached [M365State] with its
    serialisation, together with the parts of the Python runtime they rely
    on ([struct.unpack], true division, ['{:02x}'.format], [str] of a
    [bytes] object, dictionaries in insertion order). *)

From Stdlib Require Import ZArith List PrimFloat Uint63 Lia.
From Stdlib.Strings Require Import Ascii String Byte.
From stdpp Require Import gmap strings list sorting.
Import ListNotations.

Set Warnings "-inexact-float".
Local Open Scope string_scope.
Local Open Scope Z_scope.

(** ** The Python values and exceptions the decoder manipulates *)

Abbreviation bytes := (list byte).

Inductive PyValue : Type :=
  | VNone
  | VBool (b : bool)
  | VInt (z : Z)
  | VFloat (f : float)
  | VStr (s : string)
  | VBytes (b : bytes).

Inductive PyException : Type :=
  | struct_error      (* struct.error *)
  | IndexError
  | KeyError
  | TypeError
  | AttributeError.

(** A computation that either returns or raises. *)
Inductive Exc (A : Type) : Type :=
  | Ok (a : A)
  | Raise (e : PyException).
Arguments Ok {A} a.
Arguments Raise {A} e.

Definition bind {A B} (c : Exc A) (k : A -> Exc B) : Exc B :=
  match c with
  | Ok a => k a
  | Raise e => Raise e
  end.

Notation "'let!' x ':=' c 'in' k" := (bind c (fun x => k))
  (at level 10, x name, c at level 100, k at level 200).

(** ** Numbers *)

(** [float(z)]: exact for [|z| < 2^53], which covers every integer
    [struct.unpack] produces here (at most 32 bits). *)
Definition float_of_Z (z : Z) : float :=
  if z <? 0 then PrimFloat.opp (PrimFloat.of_uint63 (Uint63.of_Z (- z)))
  else PrimFloat.of_uint63 (Uint63.of_Z z).

(** [a / b] on two [int]s: the correctly rounded quotient, the IEEE
    division of the two conversions when both are exact. *)
Definition py_truediv (a b : Z) : float :=
  PrimFloat.div (float_of_Z a) (float_of_Z b).

(** [x /= c] for an integer constant [c]. *)
Definition truediv_const (c : Z) (v : PyValue) : Exc PyValue :=
  match v with
  | VInt z => Ok (VFloat (py_truediv z c))
  | VBool b => Ok (VFloat (py_truediv (Z.b2z b) c))
  | VFloat f => Ok (VFloat (PrimFloat.div f (float_of_Z c)))
  | _ => Raise TypeError
  end.

(** [x -= c] for an integer constant [c]. *)
Definition sub_const (c : Z) (v : PyValue) : Exc PyValue :=
  match v with
  | VInt z => Ok (VInt (z - c))
  | VBool b => Ok (VInt (Z.b2z b - c))
  | VFloat f => Ok (VFloat (PrimFloat.sub f (float_of_Z c)))
  | _ => Raise TypeError
  end.

(** Little-endian unsigned and two's complement readings of a byte string. *)
Definition byte_to_Z (b : byte) : Z := Z.of_N (Byte.to_N b).

Fixpoint le_uint (bs : bytes) : Z :=
  match bs with
  | [] => 0
  | b :: rest => byte_to_Z b + 256 * le_uint rest
  end.

Definition le_sint (bs : bytes) : Z :=
  let u := le_uint bs in
  let w := 8 * Z.of_nat (length bs) in
  if u <? 2 ^ (w - 1) then u else u - 2 ^ w.

(** ** Strings *)

Definition hex_digit (d : Z) : ascii :=
  match String.get (Z.to_nat d) "0123456789abcdef" with
  | Some c => c
  | None => "0"%char
  end.

Fixpoint hex_aux (fuel : nat) (n : Z) (acc : string) : string :=
  match fuel with
  | O => acc
  | S fuel' =>
      let acc' := String (hex_digit (n mod 16)) acc in
      if n / 16 =? 0 then acc' else hex_aux fuel' (n / 16) acc'
  end.

(** Lower-case hexadecimal digits of a non-negative integer ("0" for zero). *)
Definition hex (n : Z) : string := hex_aux (S (Z.to_nat (Z.log2 n))) n "".

Fixpoint zfill (width : nat) (s : string) : string :=
  match (String.length s <? width)%nat with
  | true => match width with
            | O => s
            | S w => String "0" (zfill w s)
            end
  | false => s
  end.

(** ['{:02x}'.format(v)] for [v >= 0]: hexadecimal, zero-padded to width 2. *)
Definition format_02x (v : Z) : string := zfill 2 (hex v).

(** [s[i]] on a [str]. *)
Definition str_index (s : string) (i : nat) : Exc string :=
  match String.get i s with
  | Some c => Ok (String c "")
  | None => Raise IndexError
  end.

Definition quote : ascii := ascii_of_nat 39.
Definition dquote : ascii := ascii_of_nat 34.
Definition backslash : ascii := ascii_of_nat 92.

Definition ascii_of_byte (b : byte) : ascii := Ascii.ascii_of_byte b.

(** One byte inside the [repr] of a [bytes] object delimited by [q]. *)
Definition repr_byte (q : ascii) (b : byte) : string :=
  let c := ascii_of_byte b in
  let n := byte_to_Z b in
  if (Ascii.eqb c q || Ascii.eqb c backslash)%bool then String backslash (String c "")
  else if n =? 9 then String backslash "t"
  else if n =? 10 then String backslash "n"
  else if n =? 13 then String backslash "r"
  else if ((n <? 32) || (127 <=? n))%bool then
    String backslash (String "x" (String (hex_digit (n / 16)) (String (hex_digit (n mod 16)) "")))
  else String c "".

Definition has_byte (c : ascii) (b : bytes) : bool :=
  existsb (fun x => Ascii.eqb (ascii_of_byte x) c) b.

(** [str(b)] for a [bytes] object in Python 3: its [repr], [b'...'], with
    double quotes when the bytes hold a single quote and no double quote. *)
Definition bytes_repr (b : bytes) : string :=
  let q := if (has_byte quote b && negb (has_byte dquote b))%bool then dquote else quote in
  String "b" (String q (String.concat "" (map (repr_byte q) b) ++ String q "")).

Definition py_str (v : PyValue) : Exc PyValue :=
  match v with
  | VBytes b => Ok (VStr (bytes_repr b))
  | VStr s => Ok (VStr s)
  | _ => Raise TypeError   (* str() of the other types is never taken *)
  end.

Definition is_space (c : ascii) : bool :=
  let n := nat_of_ascii c in
  ((n =? 32) || ((9 <=? n) && (n <=? 13)))%nat.

(** [s.split()]: the maximal runs of non-blank characters. *)
Fixpoint split_ws_aux (s : string) (cur : string) : list string :=
  match s with
  | EmptyString => if String.eqb cur "" then [] else [cur]
  | String c rest =>
      if is_space c
      then (if String.eqb cur "" then split_ws_aux rest "" else cur :: split_ws_aux rest "")
      else split_ws_aux rest (cur ++ String c "")
  end.

Definition split_ws (s : string) : list string := split_ws_aux s "".

(** ** Dictionaries in insertion order *)

Abbreviation Dict := (list (string * PyValue)).

Fixpoint dict_get (d : Dict) (k : string) : Exc PyValue :=
  match d with
  | [] => Raise KeyError
  | (k', v) :: rest => if String.eqb k' k then Ok v else dict_get rest k
  end.

(** [d[k] = v]: in place when [k] is present, appended otherwise. *)
Fixpoint dict_set (d : Dict) (k : string) (v : PyValue) : Dict :=
  match d with
  | [] => [(k, v)]
  | (k', v') :: rest =>
      if String.eqb k' k then (k', v) :: rest else (k', v') :: dict_set rest k v
  end.

(** [d[k] = f(d[k])], the shape of [d[k] /= c], [d[k] -= c] and
    [d[k] = str(d[k])]. *)
Definition dict_update (d : Dict) (k : string) (f : PyValue -> Exc PyValue) : Exc Dict :=
  let! v := dict_get d k in
  let! v' := f v in
  Ok (dict_set d k v').

Definition keys (d : Dict) : list string := map fst d.

Fixpoint dict_map_values (f : PyValue -> Exc PyValue) (d : Dict) : Exc Dict :=
  match d with
  | [] => Ok []
  | (k, v) :: rest =>
      let! v' := f v in
      let! rest' := dict_map_values f rest in
      Ok ((k, v') :: rest')
  end.

(** [b[i]] on a [bytes] object: an [int]. *)
Definition bytes_index (b : bytes) (i : nat) : Exc Z :=
  match nth_error b i with
  | Some x => Ok (byte_to_Z x)
  | None => Raise IndexError
  end.

(** [b[lo:hi]]: slices clamp to the length and never raise. *)
Definition bytes_slice (b : bytes) (lo hi : nat) : bytes :=
  firstn (hi - lo) (skipn lo b).

(** ** The [struct] module, for the formats the decoder uses

    Little-endian standard mode (["<"]): standard sizes, no alignment
    padding between fields. *)
Module struct.

Inductive Code : Type :=
  | code_H            (* unsigned short, 2 bytes *)
  | code_h            (* short, 2 bytes *)
  | code_I            (* unsigned int, 4 bytes *)
  | code_B            (* unsigned char, 1 byte *)
  | code_s (n : nat)  (* bytes of length n *)
  | code_x.           (* pad byte, no value *)

Definition digit_of (c : ascii) : option nat :=
  let n := nat_of_ascii c in
  if ((48 <=? n) && (n <=? 57))%nat then Some (n - 48)%nat else None.

Definition codes_of (c : ascii) (count : option nat) : option (list Code) :=
  let n := match count with Some n => n | None => 1%nat end in
  if Ascii.eqb c "H" then Some (repeat code_H n)
  else if Ascii.eqb c "h" then Some (repeat code_h n)
  else if Ascii.eqb c "I" then Some (repeat code_I n)
  else if Ascii.eqb c "B" then Some (repeat code_B n)
  else if Ascii.eqb c "x" then Some (repeat code_x n)
  else if Ascii.eqb c "s" then Some [code_s n]
  else None.

(** The codes of a format after its byte-order character: a decimal
    count repeats the code that follows, except for [s], where it is the
    length of the byte string. *)
Fixpoint parse_codes (fmt : string) (count : option nat) : option (list Code) :=
  match fmt with
  | EmptyString => match count with None => Some [] | Some _ => None end
  | String c rest =>
      match digit_of c with
      | Some d =>
          parse_codes rest
            (Some (10 * match count with Some n => n | None => O end + d)%nat)
      | None =>
          match codes_of c count, parse_codes rest None with
          | Some cs, Some more => Some (cs ++ more)%list
          | _, _ => None
          end
      end
  end.

Definition parse_format (fmt : string) : option (list Code) :=
  match fmt with
  | String "<" rest => parse_codes rest None
  | _ => None
  end.

Definition size (c : Code) : nat :=
  match c with
  | code_H | code_h => 2
  | code_I => 4
  | code_B | code_x => 1
  | code_s n => n
  end.

Definition calcsize (cs : list Code) : nat := list_sum (map size cs).

Definition value (c : Code) (field : bytes) : list PyValue :=
  match c with
  | code_H | code_I | code_B => [VInt (le_uint field)]
  | code_h => [VInt (le_sint field)]
  | code_s _ => [VBytes field]
  | code_x => []
  end.

Fixpoint unpack_codes (cs : list Code) (buffer : bytes) : list PyValue :=
  match cs with
  | [] => []
  | c :: rest =>
      (value c (firstn (size c) buffer) ++ unpack_codes rest (skipn (size c) buffer))%list
  end.

(** [struct.unpack(fmt, buffer)]: the buffer must have exactly the size
    the format describes. *)
Definition unpack (fmt : string) (buffer : bytes) : Exc (list PyValue) :=
  match parse_format fmt with
  | None => Raise struct_error
  | Some cs =>
      if (length buffer =? calcsize cs)%nat
      then Ok (unpack_codes cs buffer)
      else Raise struct_error
  end.

End struct.

(** ** The message module *)
Module M365Message.

(** Modelled from the spec: the enumeration [M365Message.Attribute] is
    not among the sources. The thirteen members [handle_message] names
    are the attributes of the catalog; [OTHER_ATTRIBUTE] stands for any
    member without a catalog entry. *)
Inductive Attribute : Type :=
  | DISTANCE_LEFT
  | SPEED
  | DISTANCE_SINCE_STARTUP
  | TAIL_LIGHT
  | CRUISE
  | BATTERY_INFO
  | BATTERY_VOLTAGE
  | BATTERY_CURRENT
  | BATTERY_PERCENT
  | GENERAL_INFO
  | MOTOR_INFO
  | TRIP_INFO
  | BATTERY_CELL_VOLTAGES
  | OTHER_ATTRIBUTE (id : Z).

(** Modelled from the spec: the enumeration [M365Message.ParseStatus],
    the three classifications of the frame parser (Complete, Disjointed,
    InvalidHeader). *)
Inductive ParseStatus : Type :=
  | OK
  | DISJOINTED
  | INVALID_HEADER.

(** Modelled from the spec: the class [M365Message.Message], a parsed
    frame with its attribute, its payload and the original bytes. *)
Record Message : Type := {
  _attribute : Attribute;
  _payload : bytes;
  _raw_bytes : bytes
}.

End M365Message.
Import M365Message.

(** ** The cached state and the driver object *)

(** What the logger is handed by [handle_message]. *)
Inductive LogRecord : Type :=
  | ReceivedMessage (message : Message)   (* log.debug("Received message: ...") *)
  | Payload (payload : bytes)             (* log.debug("Payload: ...") *)
  | UnhandledMessage.                     (* log.warning('Unhandled message!') *)

Module M365State.

(** The attributes declared in the body of [class M365State]: they
    belong to the class, an instance starts with an empty [__dict__]. *)
Definition class_attributes : Dict :=
  [ ("speed_kmh", VNone);
    ("speed_average_kmh", VNone);
    ("distance_left_km", VNone);
    ("odometer_km", VNone);
    ("distance_since_startup_km", VNone);
    ("frame_temperature", VNone);
    ("is_light_on", VNone);
    ("is_in_cruise_mode", VNone);
    ("battery_percent", VNone);
    ("battery_voltage", VNone);
    ("battery_capacity", VNone);
    ("battery_current", VNone);
    ("battery_temperature_1", VNone);
    ("battery_temperature_2", VNone) ].

(** [M365State()]: the instance dictionary of a fresh state. *)
Definition new : gmap string PyValue := ∅.

(** [state.name]: the instance dictionary first, then the class;
    [AttributeError] when neither has the name. *)
Definition getattr (__dict__ : gmap string PyValue) (name : string) : Exc PyValue :=
  match __dict__ !! name with
  | Some v => Ok v
  | None =>
      match dict_get class_attributes name with
      | Ok v => Ok v
      | Raise _ => Raise AttributeError
      end
  end.

Definition as_dict (__dict__ : gmap string PyValue) : gmap string PyValue := __dict__.

Definition key_le (a b : string * PyValue) : Prop := String.leb a.1 b.1 = true.

#[global] Instance key_le_dec a b : Decision (key_le a b).
Proof. unfold key_le. apply _. Defined.

(** [json.dumps(self, default=lambda o: o.__dict__, sort_keys=True,
    indent=4)]: the state object is not serialisable itself, so [default]
    hands over its instance dictionary, written as one JSON object with
    its keys sorted. The document is given by its members in the order
    they are written; the rendering of the values and the indentation
    are left to [json]. *)
Definition to_json (__dict__ : gmap string PyValue) : Dict :=
  merge_sort key_le (map_to_list __dict__).

End M365State.

(** The driver object [M365] and its delegate, as far as notifications
    touch them. The user callback is foreign code: its invocations are
    recorded with their arguments. *)
Record World : Type := {
  state : gmap string PyValue;        (* self._m365.state.__dict__ *)
  _callback : bool;                   (* whether self._m365._callback is set *)
  calls : list (Message * Dict);      (* invocations of the callback, oldest first *)
  records : list LogRecord;           (* records handed to the logger, oldest first *)
  disjointed_messages : list bytes    (* self.disjointed_messages *)
}.

(** [M365(mac_address, callback)] after [connect()]. *)
Definition connect (callback : bool) : World :=
  {| state := M365State.new; _callback := callback; calls := [];
     records := []; disjointed_messages := [] |}.

Definition set_state (st : gmap string PyValue) (w : World) : World :=
  {| state := st; _callback := _callback w; calls := calls w;
     records := records w; disjointed_messages := disjointed_messages w |}.

Definition set_disjointed_messages (l : list bytes) (w : World) : World :=
  {| state := state w; _callback := _callback w; calls := calls w;
     records := records w; disjointed_messages := l |}.

Definition log (r : LogRecord) (w : World) : World :=
  {| state := state w; _callback := _callback w; calls := calls w;
     records := (records w ++ [r])%list; disjointed_messages := disjointed_messages w |}.

Definition call (message : Message) (result : Dict) (w : World) : World :=
  {| state := state w; _callback := _callback w;
     calls := (calls w ++ [(message, result)])%list;
     records := records w; disjointed_messages := disjointed_messages w |}.

(** ** M365Delegate *)
Module M365Delegate.

(** [namedtuple('namedtuple', fields)._make(unpacked_tuple)._asdict()]:
    the names of [fields] paired with the values, in order; [_make]
    raises [TypeError] when the counts differ. *)
Definition unpack_to_dict (fields : string) (unpacked_tuple : list PyValue) : Exc Dict :=
  let names := split_ws fields in
  if (length names =? length unpacked_tuple)%nat
  then Ok (combine names unpacked_tuple)
  else Raise TypeError.

Definition newline : string := String (ascii_of_nat 10) "".

(** ['{:02x}'.format(result['version'])] *)
Definition format_version (v : PyValue) : Exc PyValue :=
  match v with
  | VInt z => Ok (VStr (format_02x z))
  | _ => Raise TypeError
  end.

(** ['V' + version[0] + '.' + version[1] + '.' + version[2]] *)
Definition render_version (v : PyValue) : Exc PyValue :=
  match v with
  | VStr version =>
      let! d0 := str_index version 0 in
      let! d1 := str_index version 1 in
      let! d2 := str_index version 2 in
      Ok (VStr ("V" ++ d0 ++ "." ++ d1 ++ "." ++ d2))
  | _ => Raise TypeError
  end.

(** The attribute dispatch of [handle_message]: the field map, or
    [None] for the final [else] branch, which returns early. *)
Definition decode (message : Message) : Exc (option Dict) :=
  match _attribute message with
  | DISTANCE_LEFT =>
      let! t := struct.unpack "<H" (_payload message) in
      let! result := unpack_to_dict "distance_left_km" t in
      let! result := dict_update result "distance_left_km" (truediv_const 100) in
      Ok (Some result)
  | SPEED =>
      let! t := struct.unpack "<H" (_payload message) in
      let! result := unpack_to_dict "speed_kmh" t in
      let! result := dict_update result "speed_kmh" (truediv_const 100) in
      Ok (Some result)
  | DISTANCE_SINCE_STARTUP =>
      let! t := struct.unpack "<H" (bytes_slice (_payload message) 6 8) in
      let! result := unpack_to_dict "distance_since_startup_km" t in
      let! result := dict_update result "distance_since_startup_km" (truediv_const 1000) in
      Ok (Some result)
  | TAIL_LIGHT =>
      let! b := bytes_index (_payload message) 0 in
      let is_light_on := b =? 0x02 in
      Ok (Some [("is_tail_light_on", VBool is_light_on)])
  | CRUISE =>
      let! b := bytes_index (_payload message) 0 in
      let is_cruise_on := b =? 0x01 in
      Ok (Some [("is_cruise_on", VBool is_cruise_on)])
  | BATTERY_INFO =>
      let! t := struct.unpack "<HHhHBB" (_payload message) in
      let! result := unpack_to_dict
        "battery_capacity battery_percent battery_current battery_voltage battery_temperature_1 battery_temperature_2" t in
      let! result := dict_update result "battery_capacity" (truediv_const 1000) in
      let! result := dict_update result "battery_current" (truediv_const 100) in
      let! result := dict_update result "battery_voltage" (truediv_const 100) in
      let! result := dict_update result "battery_temperature_1" (sub_const 20) in
      let! result := dict_update result "battery_temperature_2" (sub_const 20) in
      Ok (Some result)
  | BATTERY_VOLTAGE =>
      let! t := struct.unpack "<H" (_payload message) in
      let! result := unpack_to_dict "battery_voltage" t in
      let! result := dict_update result "battery_voltage" (truediv_const 100) in
      Ok (Some result)
  | BATTERY_CURRENT =>
      let! t := struct.unpack "<h" (_payload message) in
      let! result := unpack_to_dict "battery_current" t in
      let! result := dict_update result "battery_current" (truediv_const 100) in
      Ok (Some result)
  | BATTERY_PERCENT =>
      let! t := struct.unpack "<H" (_payload message) in
      let! result := unpack_to_dict "battery_percent" t in
      Ok (Some result)
  | GENERAL_INFO =>
      let! t := struct.unpack "<14s6sH" (_payload message) in
      let! result := unpack_to_dict "serial pin version" t in
      let! result := dict_update result "serial" py_str in
      let! result := dict_update result "pin" py_str in
      let! result := dict_update result "version" format_version in
      let! result := dict_update result "version" render_version in
      Ok (Some result)
  | MOTOR_INFO =>
      let! t := struct.unpack "<HHHHHHHIhhhxxxxxxxx" (_payload message) in
      let! result := unpack_to_dict
        "error warning flags workmode battery_percent speed_kmh speed_average_kmh odometer_km trip_distance_m uptime_s frame_temperature" t in
      let! result := dict_update result "speed_kmh" (truediv_const 100) in
      let! result := dict_update result "speed_average_kmh" (truediv_const 100) in
      let! result := dict_update result "odometer_km" (truediv_const 1000) in
      let! result := dict_update result "frame_temperature" (truediv_const 10) in
      Ok (Some result)
  | TRIP_INFO =>
      let! t := struct.unpack "<HIxxh" (_payload message) in
      let! result := unpack_to_dict "uptime_s trip_distance_m frame_temperature" t in
      let! result := dict_update result "frame_temperature" (truediv_const 10) in
      Ok (Some result)
  | BATTERY_CELL_VOLTAGES =>
      let! t := struct.unpack "<HHHHHHHHHHxxxxxxx" (_payload message) in
      let! result := unpack_to_dict
        ("cell_1_voltage cell_2_voltage cell_3_voltage cell_4_voltage" ++ newline ++
         "                cell_5_voltage cell_6_voltage cell_7_voltage cell_8_voltage" ++ newline ++
         "                cell_9_voltage cell_10_voltage") t in
      let! result := dict_map_values (truediv_const 100) result in
      Ok (Some result)
  | OTHER_ATTRIBUTE _ => Ok None
  end.

(** [for key, value in result.items(): state.__dict__[key] = value] *)
Definition merge (result : Dict) (st : gmap string PyValue) : gmap string PyValue :=
  fold_left (fun acc kv => <[kv.1 := kv.2]> acc) result st.

(** [handle_message]: the two debug records, the dispatch, then the
    write of every decoded pair into [state.__dict__] and the call of the
    callback when one is set. An exception of the dispatch leaves the
    method before anything is written. *)
Definition handle_message (message : Message) (w : World) : World * Exc unit :=
  let w := log (ReceivedMessage message) w in
  let w := log (Payload (_payload message)) w in
  match decode message with
  | Raise e => (w, Raise e)
  | Ok None => (log UnhandledMessage w, Ok tt)
  | Ok (Some result) =>
      let w := set_state (merge result (state w)) w in
      let w := if _callback w then call message result w else w in
      (w, Ok tt)
  end.

Section handleNotification.

(** [M365Message.Message.parse_from_bytes] is not among the sources:
    the reassembly is stated for any frame parser. With a status
    other than [OK] the message it returns is not looked at. *)
Variable parse_from_bytes : bytes -> ParseStatus * option Message.

(** [self.handle_message(message)] on what the parser returned:
    [message.as_dict()] fails on [None]. *)
Definition handle_parsed (message : option Message) (w : World) : World * Exc unit :=
  match message with
  | Some m => handle_message m w
  | None => (w, Raise AttributeError)
  end.

(** The loop [for i, prev_data in enumerate(self.disjointed_messages)]
    from iteration [i] on. The list iterator reads the list afresh
    at each step, so after [del self.disjointed_messages[i]] the
    next iteration reads index [i + 1] of the shortened list. The
    result is [None] when [fuel] iterations were not enough. *)
Fixpoint scan (fuel : nat) (data : bytes) (i : nat) (w : World)
  : option (World * Exc unit) :=
  match fuel with
  | O => None
  | S fuel' =>
      match nth_error (disjointed_messages w) i with
      | None => Some (w, Ok tt)
      | Some prev_data =>
          let combined_data := (prev_data ++ data)%list in
          match parse_from_bytes combined_data with
          | (OK, message) =>
              match handle_parsed message w with
              | (w', Raise e) => Some (w', Raise e)
              | (w', Ok _) =>
                  scan fuel' data (S i)
                    (set_disjointed_messages (delete i (disjointed_messages w')) w')
              end
          | _ => scan fuel' data (S i) w
          end
      end
  end.

(** [handleNotification(cHandle, data)]: empty deliveries are ignored,
    a complete frame is handled, a disjointed one is appended to the
    pending fragments, and on an invalid header the pending fragments are
    scanned. The list only shrinks during the scan, so one iteration more
    than its length is enough fuel. *)
Definition handleNotification (data : bytes) (w : World) : option (World * Exc unit) :=
  if (length data =? 0)%nat then Some (w, Ok tt)
  else
    match parse_from_bytes data with
    | (OK, message) => Some (handle_parsed message w)
    | (DISJOINTED, _) =>
        Some (set_disjointed_messages (disjointed_messages w ++ [data])%list w, Ok tt)
    | (INVALID_HEADER, _) =>
        scan (S (length (disjointed_messages w))) data 0 w
    end.

(** A session: the notifications delivered one after the other. An
    exception leaves [handleNotification]; the objects stay as they
    are and the next notification finds them so. *)
Fixpoint deliver (notifications : list bytes) (w : World) : option World :=
  match notifications with
  | [] => Some w
  | data :: rest =>
      match handleNotification data w with
      | Some (w', _) => deliver rest w'
      | None => None
      end
  end.

End handleNotification.

End M365Delegate.
Import M365Delegate.

(** ** A frame parser to run the delegate on

    The wire format of [M365Message] is not among the sources. This parser
    realises the three classifications on a plain frame shape: the sync
    marker [55 AA], the declared payload length, a source/destination
    byte, the attribute byte, the payload and two trailer bytes. It only
    serves to run the delegate on concrete notifications. *)
Module Sample.

Definition attribute_of (id : Z) : Attribute :=
  if id =? 0x25 then DISTANCE_LEFT
  else if id =? 0xb5 then SPEED
  else if id =? 0x7d then TAIL_LIGHT
  else if id =? 0x7c then CRUISE
  else if id =? 0x31 then BATTERY_INFO
  else if id =? 0x32 then BATTERY_PERCENT
  else if id =? 0x33 then BATTERY_CURRENT
  else if id =? 0x34 then BATTERY_VOLTAGE
  else if id =? 0x10 then GENERAL_INFO
  else if id =? 0xb0 then MOTOR_INFO
  else if id =? 0x3a then TRIP_INFO
  else if id =? 0x40 then BATTERY_CELL_VOLTAGES
  else if id =? 0x2f then DISTANCE_SINCE_STARTUP
  else OTHER_ATTRIBUTE id.

Definition parse_from_bytes (data : bytes) : ParseStatus * option Message :=
  match data with
  | s0 :: s1 :: header =>
      if ((byte_to_Z s0 =? 0x55) && (byte_to_Z s1 =? 0xaa))%bool then
        match header with
        | len :: addr :: attr :: rest =>
            let n := Z.to_nat (byte_to_Z len) in
            if (length rest =? n + 2)%nat then
              (OK, Some {| _attribute := attribute_of (byte_to_Z attr);
                           _payload := firstn n rest;
                           _raw_bytes := data |})
            else if (length rest <? n + 2)%nat then (DISJOINTED, None)
            else (INVALID_HEADER, None)
        | _ => (DISJOINTED, None)
        end
      else (INVALID_HEADER, None)
  | _ => (INVALID_HEADER, None)
  end.

(** A tail-light frame (payload [02 00]) cut after its header, the
    first part of a cruise frame with a longer payload, and the bytes
    that complete the former. *)
Definition light_head : bytes := [Byte.x55; Byte.xaa; Byte.x02; Byte.x23; Byte.x7d].
Definition cruise_head : bytes := [Byte.x55; Byte.xaa; Byte.x06; Byte.x23; Byte.x7c; Byte.x01].
Definition light_tail : bytes := [Byte.x02; Byte.x00; Byte.x5b; Byte.xff].

Definition light_message : Message :=
  {| _attribute := TAIL_LIGHT; _payload := [Byte.x02; Byte.x00];
     _raw_bytes := (light_head ++ light_tail)%list |}.

End Sample.

(** ** The catalog behind the dispatch *)

(** The attributes [handle_message] has a branch for. *)
Definition in_catalog (a : Attribute) : bool :=
  match a with
  | OTHER_ATTRIBUTE _ => false
  | _ => true
  end.

(** The payload lengths the branch of an attribute reads its fields
    from: the size of the [struct] format where the whole payload is
    unpacked, at least eight bytes where bytes 6 to 8 are sliced out,
    at least one byte where byte 0 is read. *)
Definition payload_fits (a : Attribute) (n : nat) : bool :=
  match a with
  | DISTANCE_LEFT | SPEED | BATTERY_VOLTAGE | BATTERY_CURRENT | BATTERY_PERCENT =>
      (n =? 2)%nat
  | DISTANCE_SINCE_STARTUP => (8 <=? n)%nat
  | TAIL_LIGHT | CRUISE => (1 <=? n)%nat
  | BATTERY_INFO => (n =? 10)%nat
  | GENERAL_INFO => (n =? 22)%nat
  | MOTOR_INFO => (n =? 32)%nat
  | TRIP_INFO => (n =? 10)%nat
  | BATTERY_CELL_VOLTAGES => (n =? 27)%nat
  | OTHER_ATTRIBUTE _ => true
  end.

(** The exception a payload of another length ends the branch with. *)
Definition mismatch_error (a : Attribute) : PyException :=
  match a with
  | TAIL_LIGHT | CRUISE => IndexError
  | _ => struct_error
  end.

(** A speed frame whose payload lost a byte. *)
Definition short_speed_frame : bytes :=
  [Byte.x55; Byte.xaa; Byte.x01; Byte.x23; Byte.xb5; Byte.x64; Byte.x00; Byte.xff].

Definition short_speed_message : Message :=
  {| _attribute := SPEED; _payload := [Byte.x64]; _raw_bytes := short_speed_frame |}.

(** The payload in the comment of the [GENERAL_INFO] branch, serial
    [16132/00095292] and pin [000000], with a version word of choice. *)
Definition general_info_payload (lo hi : byte) : bytes :=
  [Byte.x31; Byte.x36; Byte.x31; Byte.x33; Byte.x32; Byte.x2f; Byte.x30;
   Byte.x30; Byte.x30; Byte.x39; Byte.x35; Byte.x32; Byte.x39; Byte.x32;
   Byte.x30; Byte.x30; Byte.x30; Byte.x30; Byte.x30; Byte.x30; lo; hi].

Definition general_info_message (lo hi : byte) : Message :=
  {| _attribute := GENERAL_INFO; _payload := general_info_payload lo hi;
     _raw_bytes := [] |}.

(** Whether the rendering of a version word ends in [IndexError], and
    whether it yields a string. *)
Definition version_raises (v : Z) : bool :=
  match render_version (VStr (format_02x v)) with
  | Raise IndexError => true
  | _ => false
  end.

Definition version_renders (v : Z) : bool :=
  match render_version (VStr (format_02x v)) with
  | Ok (VStr _) => true
  | _ => false
  end.

(** The payload in the comment of the [TRIP_INFO] branch, with a trip
    distance of 10000 m in the four bytes after the uptime. *)
Definition trip_info_payload : bytes :=
  [Byte.xec; Byte.x00; Byte.x10; Byte.x27; Byte.x00; Byte.x00; Byte.x00;
   Byte.x00; Byte.xe6; Byte.x00].

Definition trip_info_message : Message :=
  {| _attribute := TRIP_INFO; _payload := trip_info_payload; _raw_bytes := [] |}.

(** The payload in the comment of the [BATTERY_CELL_VOLTAGES] branch. *)
Definition cell_voltages_payload : bytes :=
  [Byte.x2d; Byte.x10; Byte.x2e; Byte.x10; Byte.x1d; Byte.x10; Byte.x2f;
   Byte.x10; Byte.x34; Byte.x10; Byte.x34; Byte.x10; Byte.x3a; Byte.x10;
   Byte.x3a; Byte.x10; Byte.x2e; Byte.x10; Byte.x2f; Byte.x10; Byte.x00;
   Byte.x00; Byte.x00; Byte.x00; Byte.x00; Byte.x00; Byte.x00].

Definition cell_voltages_message : Message :=
  {| _attribute := BATTERY_CELL_VOLTAGES; _payload := cell_voltages_payload;
     _raw_bytes := [] |}.

(** ** The layouts as the specification words them *)
Module Specified.

(** The [TripInfo] row of the catalog: "uptime_s:u16, (2 skip),
    trip_distance_m:u32, (2 skip), frame_temperature:i16", the last one
    divided by 10. *)
Definition TRIP_INFO_format : string := "<HxxIxxh".

Definition decode_TRIP_INFO (payload : bytes) : Exc (option Dict) :=
  let! t := struct.unpack TRIP_INFO_format payload in
  let! result := unpack_to_dict "uptime_s trip_distance_m frame_temperature" t in
  let! result := dict_update result "frame_temperature" (truediv_const 10) in
  Ok (Some result).

End Specified.

(** The keys of the field map each branch of [decode] builds. *)
Definition field_names (a : Attribute) : list string :=
  match a with
  | DISTANCE_LEFT => ["distance_left_km"]
  | SPEED => ["speed_kmh"]
  | DISTANCE_SINCE_STARTUP => ["distance_since_startup_km"]
  | TAIL_LIGHT => ["is_tail_light_on"]
  | CRUISE => ["is_cruise_on"]
  | BATTERY_INFO =>
      ["battery_capacity"; "battery_percent"; "battery_current"; "battery_voltage";
       "battery_temperature_1"; "battery_temperature_2"]
  | BATTERY_VOLTAGE => ["battery_voltage"]
  | BATTERY_CURRENT => ["battery_current"]
  | BATTERY_PERCENT => ["battery_percent"]
  | GENERAL_INFO => ["serial"; "pin"; "version"]
  | MOTOR_INFO =>
      ["error"; "warning"; "flags"; "workmode"; "battery_percent"; "speed_kmh";
       "speed_average_kmh"; "odometer_km"; "trip_distance_m"; "uptime_s";
       "frame_temperature"]
  | TRIP_INFO => ["uptime_s"; "trip_distance_m"; "frame_temperature"]
  | BATTERY_CELL_VOLTAGES =>
      ["cell_1_voltage"; "cell_2_voltage"; "cell_3_voltage"; "cell_4_voltage";
       "cell_5_voltage"; "cell_6_voltage"; "cell_7_voltage"; "cell_8_voltage";
       "cell_9_voltage"; "cell_10_voltage"]
  | OTHER_ATTRIBUTE _ => []
  end.

(** The instance dictionary has no entry for the two declared slots. *)
Definition declared_slots_unset (w : World) : Prop :=
  state w !! "is_light_on" = None /\ state w !! "is_in_cruise_mode" = None.

(** ** The remaining functions of the module *)

(** [phex(s)]: ['/x{:02x}'.format(x)] for every byte, joined. *)
Definition phex (s : bytes) : string :=
  String.concat "" (map (fun x => "/x" ++ format_02x (byte_to_Z x)) s).

(** The part of [bluepy.btle] that [M365._find_characteristic] looks
    at: a characteristic carries its UUID, here in its canonical text
    form, and the handle the peripheral gave it. *)
Module btle.

Record Characteristic : Type := {
  uuid : string;
  valHandle : Z
}.

End btle.

Module M365.

Definition RX_CHARACTERISTIC : string := "6e400003-b5a3-f393-e0a9-e50e24dcca9e".
Definition TX_CHARACTERISTIC : string := "6e400002-b5a3-f393-e0a9-e50e24dcca9e".

(** [_find_characteristic(uuid, chars)]: the first element of
    [filter(lambda x: x.uuid == uuid, chars)], [None] when the filter
    yields nothing. *)
Definition _find_characteristic (uuid : string) (chars : list btle.Characteristic)
  : option btle.Characteristic :=
  let results := List.filter (fun x => String.eqb (btle.uuid x) uuid) chars in
  match results with
  | result :: _ => Some result
  | [] => None
  end.

End M365.

(** The buffer completes no fragment from position [i] of the pending
    list on. *)
Definition completes_none_from
    (parse_from_bytes : bytes -> ParseStatus * option Message)
    (data : bytes) (i : nat) (pending : list bytes) : Prop :=
  forall j f, (i <= j)%nat -> nth_error pending j = Some f ->
              fst (parse_from_bytes (f ++ data)%list) <> OK.

(** The three characteristics of a scooter as a sample. *)
Definition sample_characteristics : list btle.Characteristic :=
  [ {| btle.uuid := "00002a00-0000-1000-8000-00805f9b34fb"; btle.valHandle := 3 |};
    {| btle.uuid := M365.RX_CHARACTERISTIC; btle.valHandle := 11 |};
    {| btle.uuid := M365.TX_CHARACTERISTIC; btle.valHandle := 14 |};
    {| btle.uuid := M365.TX_CHARACTERISTIC; btle.valHandle := 17 |} ].


(** What a session keeps pending: non-empty buffers that the parser
    classified as disjointed. *)
Definition pending_well_formed
    (parse_from_bytes : bytes -> ParseStatus * option Message) (w : World) : Prop :=
  Forall (fun f => f <> [] /\ fst (parse_from_bytes f) = DISJOINTED)
         (disjointed_messages w).

(** * Properties *)

(** ** The decoder on a few payloads *)

Example decode_speed :
  decode {| _attribute := SPEED; _payload := [Byte.x64; Byte.x00]; _raw_bytes := [] |}
  = Ok (Some [("speed_kmh", VFloat 1%float)]).
Proof. vm_compute. reflexivity. Qed.

Example decode_battery_current_negative :
  decode {| _attribute := BATTERY_CURRENT; _payload := [Byte.x9c; Byte.xff];
            _raw_bytes := [] |}
  = Ok (Some [("battery_current", VFloat (-1)%float)]).
Proof. vm_compute. reflexivity. Qed.

Example decode_general_info_of_the_comment :
  decode (general_info_message Byte.x38 Byte.x01)
  = Ok (Some [("serial", VStr "b'16132/00095292'"); ("pin", VStr "b'000000'");
              ("version", VStr "V1.3.8")]).
Proof. vm_compute. reflexivity. Qed.

Example decode_distance_since_startup :
  decode {| _attribute := DISTANCE_SINCE_STARTUP;
            _payload := [Byte.x00; Byte.x00; Byte.x00; Byte.x00; Byte.x00; Byte.x00;
                         Byte.xe8; Byte.x03; Byte.xff];
            _raw_bytes := [] |}
  = Ok (Some [("distance_since_startup_km", VFloat 1%float)]).
Proof. vm_compute. reflexivity. Qed.

(** ** What [handle_message] does to the objects *)

Lemma handle_message_raise message w e :
  decode message = Raise e ->
  handle_message message w
  = (log (Payload (_payload message)) (log (ReceivedMessage message) w), Raise e).
Proof. intros E. unfold handle_message. rewrite E. reflexivity. Qed.

Lemma handle_message_unhandled message w :
  decode message = Ok None ->
  handle_message message w
  = (log UnhandledMessage
       (log (Payload (_payload message)) (log (ReceivedMessage message) w)), Ok tt).
Proof. intros E. unfold handle_message. rewrite E. reflexivity. Qed.

Lemma handle_message_decoded message w result :
  decode message = Ok (Some result) ->
  exists w',
    handle_message message w = (w', Ok tt)
    /\ state w' = merge result (state w)
    /\ calls w' = (if _callback w then calls w ++ [(message, result)] else calls w)%list
    /\ disjointed_messages w' = disjointed_messages w
    /\ _callback w' = _callback w.
Proof.
  intros E. unfold handle_message. rewrite E. cbn.
  destruct (_callback w) eqn:Hc; eexists; (split; [reflexivity|]); cbn;
    rewrite ?Hc; repeat split; reflexivity.
Qed.

Lemma handle_message_frame message w w' o :
  handle_message message w = (w', o) ->
  disjointed_messages w' = disjointed_messages w /\ _callback w' = _callback w.
Proof.
  unfold handle_message. intros E.
  destruct (decode message) as [[result|]|e]; cbn in E.
  - destruct (_callback w) eqn:Hc; inversion E; subst; split; cbn; auto.
  - inversion E; subst; split; reflexivity.
  - inversion E; subst; split; reflexivity.
Qed.

Lemma handle_parsed_frame message w w' o :
  handle_parsed message w = (w', o) ->
  disjointed_messages w' = disjointed_messages w /\ _callback w' = _callback w.
Proof.
  destruct message as [m|]; cbn; intros E.
  - eapply handle_message_frame; eassumption.
  - inversion E; subst; split; reflexivity.
Qed.

(** ** The reassembly loop returns *)

Section Reassembly.

Variable parse_from_bytes : bytes -> ParseStatus * option Message.

Lemma scan_returns fuel data : forall i w,
  (length (disjointed_messages w) - i < fuel)%nat ->
  exists r, scan parse_from_bytes fuel data i w = Some r.
Proof.
  induction fuel as [|fuel IH]; intros i w Hlen; [lia|].
  cbn [scan].
  destruct (nth_error (disjointed_messages w) i) as [prev_data|] eqn:Hi;
    [|eexists; reflexivity].
  assert (i < length (disjointed_messages w))%nat as Hlt
    by (apply nth_error_Some; congruence).
  destruct (parse_from_bytes (prev_data ++ data)) as [[| |] message].
  - destruct (handle_parsed message w) as [w' [[]|e]] eqn:Hh;
      [|eexists; reflexivity].
    apply IH. cbn.
    apply handle_parsed_frame in Hh as [Hd _].
    rewrite length_delete, Hd; [lia|].
    rewrite Hd. apply lookup_lt_is_Some_2. exact Hlt.
  - apply IH. lia.
  - apply IH. lia.
Qed.

(** [handleNotification] returns (normally or by an exception) on every
    notification, and so does a whole session. *)
Lemma handleNotification_returns data w :
  exists r, handleNotification parse_from_bytes data w = Some r.
Proof.
  unfold handleNotification.
  destruct (length data =? 0)%nat; [eexists; reflexivity|].
  destruct (parse_from_bytes data) as [[| |] message]; try (eexists; reflexivity).
  apply scan_returns. lia.
Qed.

End Reassembly.

(** ** [struct.unpack] and the size of the buffer *)

Lemma unpack_sized fmt cs buffer :
  struct.parse_format fmt = Some cs ->
  (length buffer =? struct.calcsize cs)%nat = true ->
  struct.unpack fmt buffer = Ok (struct.unpack_codes cs buffer).
Proof. intros Hf Hl. unfold struct.unpack. rewrite Hf, Hl. reflexivity. Qed.

Lemma unpack_raises fmt cs buffer :
  struct.parse_format fmt = Some cs ->
  (length buffer =? struct.calcsize cs)%nat = false ->
  struct.unpack fmt buffer = Raise struct_error.
Proof. intros Hf Hl. unfold struct.unpack. rewrite Hf, Hl. reflexivity. Qed.

Lemma decode_payload_mismatch message :
  payload_fits (_attribute message) (length (_payload message)) = false ->
  decode message = Raise (mismatch_error (_attribute message)).
Proof.
  destruct message as [a payload raw]. cbn [_attribute _payload]. intros Hfit.
  unfold decode. cbn [_attribute _payload].
  destruct a; cbn [payload_fits mismatch_error] in *;
    try discriminate;
    try (erewrite unpack_raises; [reflexivity | reflexivity | exact Hfit]).
  - (* DISTANCE_SINCE_STARTUP: the slice is shorter than two bytes *)
    erewrite unpack_raises; [reflexivity | reflexivity |].
    unfold bytes_slice. rewrite length_firstn, length_skipn.
    apply Nat.leb_gt in Hfit. apply Nat.eqb_neq.
    change (struct.calcsize _) with 2%nat. lia.
  - (* TAIL_LIGHT *)
    destruct payload; [reflexivity | discriminate].
  - (* CRUISE *)
    destruct payload; [reflexivity | discriminate].
Qed.

(** ** C6: messages without a catalog entry *)

(** C6. For every message whose attribute has no catalog entry,
    [handle_message] returns normally after logging: the cached state is
    the same, the callback is not invoked, the pending fragments are
    untouched. *)
Theorem unknown_attribute_is_dropped message w :
  in_catalog (_attribute message) = false ->
  exists w',
    handle_message message w = (w', Ok tt)
    /\ state w' = state w
    /\ calls w' = calls w
    /\ disjointed_messages w' = disjointed_messages w
    /\ records w'
       = (records w ++ [ReceivedMessage message; Payload (_payload message);
                        UnhandledMessage])%list.
Proof.
  intros Hcat.
  assert (decode message = Ok None) as Hd.
  { unfold decode. destruct (_attribute message); try discriminate. reflexivity. }
  rewrite (handle_message_unhandled _ _ Hd).
  eexists. split; [reflexivity|]. cbn. repeat split.
  rewrite <- !app_assoc. reflexivity.
Qed.

Lemma unknown_attribute_is_dropped_witness :
  exists w',
    handle_message
      {| _attribute := OTHER_ATTRIBUTE 0x7b; _payload := [Byte.x01; Byte.x00];
         _raw_bytes := [] |} (connect true) = (w', Ok tt)
    /\ state w' = state (connect true)
    /\ calls w' = [].
Proof.
  destruct (unknown_attribute_is_dropped
              {| _attribute := OTHER_ATTRIBUTE 0x7b; _payload := [Byte.x01; Byte.x00];
                 _raw_bytes := [] |} (connect true))
    as (w' & H1 & H2 & H3 & _).
  - reflexivity.
  - exists w'. repeat split; assumption.
Defined.

(** ** C7: an invalid header with nothing pending *)

(** C7. A non-empty buffer classified [INVALID_HEADER] that arrives
    while no fragment is pending changes nothing: [handleNotification]
    returns normally with the same state, callback record, log and (empty)
    fragment list. *)
Theorem invalid_header_without_fragments
    (parse_from_bytes : bytes -> ParseStatus * option Message) data w :
  fst (parse_from_bytes data) = INVALID_HEADER ->
  disjointed_messages w = [] ->
  handleNotification parse_from_bytes data w = Some (w, Ok tt).
Proof.
  intros Hp Hnil. unfold handleNotification.
  destruct (length data =? 0)%nat; [reflexivity|].
  destruct (parse_from_bytes data) as [status message]. cbn in Hp. subst status.
  rewrite Hnil. cbn [length scan]. rewrite Hnil. reflexivity.
Qed.

Lemma invalid_header_without_fragments_witness :
  handleNotification Sample.parse_from_bytes Sample.light_tail (connect true)
  = Some (connect true, Ok tt).
Proof.
  apply (invalid_header_without_fragments Sample.parse_from_bytes
           Sample.light_tail (connect true)); reflexivity.
Defined.

(** ** C2: payloads of the wrong length *)

(** C2, as the code has it. For every message whose payload length does
    not fit the layout of its attribute, decoding is abandoned by an
    exception ([struct.error], or [IndexError] where byte 0 is read) that
    leaves [handle_message], and [handleNotification] when the message
    was parsed from the notification itself; the cached state is the same
    and the callback is not invoked. *)
Theorem payload_mismatch_raises message w :
  payload_fits (_attribute message) (length (_payload message)) = false ->
  exists w',
    handle_message message w = (w', Raise (mismatch_error (_attribute message)))
    /\ state w' = state w
    /\ calls w' = calls w
    /\ disjointed_messages w' = disjointed_messages w
    /\ forall (parse_from_bytes : bytes -> ParseStatus * option Message) data,
         data <> [] ->
         parse_from_bytes data = (OK, Some message) ->
         handleNotification parse_from_bytes data w
         = Some (w', Raise (mismatch_error (_attribute message))).
Proof.
  intros Hfit. apply decode_payload_mismatch in Hfit.
  pose proof (handle_message_raise _ w _ Hfit) as Hh.
  eexists. split; [exact Hh|]. repeat split.
  intros parse_from_bytes data Hne Hp. unfold handleNotification.
  destruct data as [|b data]; [congruence|]. cbn [length Nat.eqb].
  rewrite Hp. cbn [handle_parsed]. rewrite Hh. reflexivity.
Qed.

Lemma payload_mismatch_raises_witness :
  exists w',
    handle_message short_speed_message (connect true) = (w', Raise struct_error)
    /\ state w' = state (connect true)
    /\ calls w' = [].
Proof.
  destruct (payload_mismatch_raises short_speed_message (connect true))
    as (w' & H1 & H2 & H3 & _).
  - reflexivity.
  - exists w'. repeat split; assumption.
Defined.

(** C2, as stated, fails: the speed message with a one-byte payload makes
    [handle_message] raise [struct.error], and the exception leaves
    [handleNotification] as well. *)
Lemma payload_mismatch_exception_escapes :
  snd (handle_message short_speed_message (connect true)) = Raise struct_error
  /\ Sample.parse_from_bytes short_speed_frame = (OK, Some short_speed_message)
  /\ (exists w', handleNotification Sample.parse_from_bytes short_speed_frame (connect true)
                 = Some (w', Raise struct_error)).
Proof.
  split; [reflexivity|]. split; [reflexivity|].
  eexists. reflexivity.
Qed.

(** ** The layouts, field by field *)

Lemma unpack_to_dict_names fields names unpacked_tuple :
  split_ws fields = names ->
  length names = length unpacked_tuple ->
  unpack_to_dict fields unpacked_tuple = Ok (combine names unpacked_tuple).
Proof.
  intros Hs Hl. unfold unpack_to_dict. rewrite Hs, Hl, Nat.eqb_refl. reflexivity.
Qed.

Tactic Notation "explode_payload" integer(n) ident(payload) hyp(H) :=
  do n (destruct payload as [|? payload]; [discriminate H|]);
  destruct payload; [|discriminate H].

(** Runs [struct.unpack] and [unpack_to_dict] of a branch of [decode] on
    a payload given byte by byte. *)
Ltac unpack_fields :=
  unfold decode; cbn [_attribute _payload];
  erewrite unpack_sized; [|vm_compute; reflexivity|reflexivity];
  cbn [bind struct.unpack_codes struct.value struct.size firstn skipn app];
  erewrite unpack_to_dict_names; [|vm_compute; reflexivity|reflexivity];
  cbn [bind combine].

Lemma decode_GENERAL_INFO payload raw :
  length payload = 22%nat ->
  decode {| _attribute := GENERAL_INFO; _payload := payload; _raw_bytes := raw |}
  = let! version :=
      render_version (VStr (format_02x (le_uint (bytes_slice payload 20 22)))) in
    Ok (Some [("serial", VStr (bytes_repr (bytes_slice payload 0 14)));
              ("pin", VStr (bytes_repr (bytes_slice payload 14 20)));
              ("version", version)]).
Proof.
  intros H. explode_payload 22 payload H.
  unpack_fields.
  cbn -[bytes_repr format_02x render_version le_uint].
  destruct (render_version _); reflexivity.
Qed.

(** ** C9 and C3: the version word of [GENERAL_INFO] *)

Lemma byte_to_Z_range b : 0 <= byte_to_Z b < 256.
Proof.
  unfold byte_to_Z. pose proof (Byte.to_N_bounded b). lia.
Qed.

Lemma le_uint_range bs : 0 <= le_uint bs < 256 ^ Z.of_nat (length bs).
Proof.
  induction bs as [|b bs IH]; cbn [le_uint length]; [cbn; lia|].
  pose proof (byte_to_Z_range b).
  rewrite Nat2Z.inj_succ, Z.pow_succ_r by lia. lia.
Qed.

Lemma below_by_enumeration (P : Z -> bool) (lo n : nat) :
  forallb (fun k => P (Z.of_nat k)) (seq lo n) = true ->
  forall v, Z.of_nat lo <= v < Z.of_nat (lo + n) -> P v = true.
Proof.
  intros Hall v Hv. rewrite forallb_forall in Hall.
  specialize (Hall (Z.to_nat v)). rewrite Z2Nat.id in Hall by lia.
  apply Hall. apply in_seq. lia.
Qed.

(** Up to [0xff] the rendering has two characters and indexing the third
    one fails; from [0x100] on it has three or four and the version
    string is built. *)
Lemma render_version_low v :
  0 <= v <= 0xff -> render_version (VStr (format_02x v)) = Raise IndexError.
Proof.
  intros Hv.
  assert (version_raises v = true) as H.
  { apply (below_by_enumeration version_raises 0 256); [vm_compute; reflexivity|lia]. }
  unfold version_raises in H.
  destruct (render_version (VStr (format_02x v))) as [?|[]]; congruence.
Qed.

Lemma render_version_high v :
  0x100 <= v < 0x10000 ->
  exists s, render_version (VStr (format_02x v)) = Ok (VStr s).
Proof.
  intros Hv.
  assert (version_renders v = true) as H.
  { replace v with (v mod 256 + 256 * (v / 256)) by (pose proof (Z.div_mod v 256); lia).
    apply (below_by_enumeration (fun lo => version_renders (lo + 256 * (v / 256))) 0 256);
      [|pose proof (Z.mod_pos_bound v 256); lia].
    apply (below_by_enumeration
             (fun hi => forallb (fun k => version_renders (Z.of_nat k + 256 * hi))
                          (seq 0 256)) 1 255);
      [vm_compute; reflexivity|].
    assert (1 <= v / 256) by (apply Z.div_le_lower_bound; lia).
    assert (v / 256 < 256) by (apply Z.div_lt_upper_bound; lia).
    lia. }
  unfold version_renders in H.
  destruct (render_version (VStr (format_02x v))) as [[]|]; try discriminate.
  eexists; reflexivity.
Qed.

Lemma version_word_range payload :
  0 <= le_uint (bytes_slice payload 20 22) < 0x10000.
Proof.
  pose proof (le_uint_range (bytes_slice payload 20 22)) as H.
  assert (length (bytes_slice payload 20 22) <= 2)%nat as Hl.
  { unfold bytes_slice. rewrite length_firstn. lia. }
  assert (256 ^ Z.of_nat (length (bytes_slice payload 20 22)) <= 256 ^ 2)
    by (apply Z.pow_le_mono_r; lia).
  lia.
Qed.

(** C9. A [GENERAL_INFO] message (22-byte payload) whose version word is
    at most [0x00ff] makes the decoder raise [IndexError]: nothing is
    merged and the callback is not invoked. The decoding of a
    [GENERAL_INFO] message completes exactly for version words of
    [0x0100] or more. *)
Theorem general_info_low_version_raises payload raw w :
  length payload = 22%nat ->
  let message := {| _attribute := GENERAL_INFO; _payload := payload; _raw_bytes := raw |} in
  let version := le_uint (bytes_slice payload 20 22) in
  (version <= 0x00ff ->
     decode message = Raise IndexError
     /\ exists w', handle_message message w = (w', Raise IndexError)
                   /\ state w' = state w /\ calls w' = calls w)
  /\ ((exists result, decode message = Ok (Some result)) <-> 0x0100 <= version).
Proof.
  intros Hlen message version.
  pose proof (version_word_range payload) as Hrange.
  pose proof (decode_GENERAL_INFO payload raw Hlen) as Hd.
  fold message version in Hd, Hrange.
  split.
  - intros Hlow.
    assert (decode message = Raise IndexError) as Hr.
    { rewrite Hd, render_version_low by lia. reflexivity. }
    split; [exact Hr|].
    rewrite (handle_message_raise _ w _ Hr). eexists. repeat split.
  - split.
    + intros [result Hres].
      destruct (Z_lt_le_dec version 0x100) as [Hlow|Hhigh]; [|exact Hhigh].
      rewrite Hd, render_version_low in Hres by lia. discriminate.
    + intros Hhigh.
      destruct (render_version_high version) as [s Hs]; [lia|].
      rewrite Hd, Hs. eexists. reflexivity.
Qed.

Lemma general_info_low_version_raises_witness :
  decode (general_info_message Byte.x38 Byte.x00) = Raise IndexError.
Proof.
  apply (general_info_low_version_raises
           (general_info_payload Byte.x38 Byte.x00) [] (connect true)).
  - reflexivity.
  - vm_compute. discriminate.
Defined.

(** C3, as the code has it. A [GENERAL_INFO] message whose version word
    unpacks to [0x0801] decodes with [version == "V8.0.1"]: the word is
    written in hexadecimal without leading zeros (at least two digits),
    and the first three characters become the three parts. *)
Theorem general_info_version_0801 payload raw :
  length payload = 22%nat ->
  le_uint (bytes_slice payload 20 22) = 0x0801 ->
  decode {| _attribute := GENERAL_INFO; _payload := payload; _raw_bytes := raw |}
  = Ok (Some [("serial", VStr (bytes_repr (bytes_slice payload 0 14)));
              ("pin", VStr (bytes_repr (bytes_slice payload 14 20)));
              ("version", VStr "V8.0.1")]).
Proof.
  intros Hlen Hv. rewrite (decode_GENERAL_INFO payload raw Hlen), Hv. reflexivity.
Qed.

Lemma general_info_version_0801_witness :
  decode (general_info_message Byte.x01 Byte.x08)
  = Ok (Some [("serial", VStr "b'16132/00095292'");
              ("pin", VStr "b'000000'");
              ("version", VStr "V8.0.1")]).
Proof.
  apply (general_info_version_0801 (general_info_payload Byte.x01 Byte.x08) []);
    reflexivity.
Defined.

(** C3, as stated, fails: with the version word [0x0801] (bytes [01 08])
    the field is ["V8.0.1"], not ["V0.8.1"]. *)
Lemma general_info_version_is_not_V081 :
  le_uint (bytes_slice (general_info_payload Byte.x01 Byte.x08) 20 22) = 0x0801
  /\ exists result,
       decode (general_info_message Byte.x01 Byte.x08) = Ok (Some result)
       /\ dict_get result "version" = Ok (VStr "V8.0.1")
       /\ dict_get result "version" <> Ok (VStr "V0.8.1").
Proof.
  split; [reflexivity|].
  eexists. split; [vm_compute; reflexivity|]. split; [reflexivity|].
  cbn. discriminate.
Qed.

(** ** C4: the layout of [TRIP_INFO] *)

(** C4, as the code has it. The payload of a [TRIP_INFO] message has ten
    bytes: [uptime_s] is the u16 at offset 0, [trip_distance_m] the u32
    at offset 2, right after it, then two bytes are skipped, and
    [frame_temperature] is the i16 at offset 8 divided by 10; all
    little-endian. *)
Theorem trip_info_layout payload raw :
  length payload = 10%nat ->
  decode {| _attribute := TRIP_INFO; _payload := payload; _raw_bytes := raw |}
  = Ok (Some [("uptime_s", VInt (le_uint (bytes_slice payload 0 2)));
              ("trip_distance_m", VInt (le_uint (bytes_slice payload 2 6)));
              ("frame_temperature",
               VFloat (py_truediv (le_sint (bytes_slice payload 8 10)) 10))]).
Proof.
  intros H. explode_payload 10 payload H.
  unpack_fields. reflexivity.
Qed.

Lemma trip_info_layout_witness :
  decode trip_info_message
  = Ok (Some [("uptime_s", VInt 236); ("trip_distance_m", VInt 10000);
              ("frame_temperature", VFloat 23%float)]).
Proof.
  apply (trip_info_layout trip_info_payload []). reflexivity.
Defined.

(** C4, as stated, fails: on the ten bytes of a trip frame the decoder
    reads the distance from offset 2, whereas the layout with two skipped
    bytes after the uptime takes twelve bytes and rejects the payload. *)
Lemma trip_info_layout_differs :
  decode trip_info_message <> Specified.decode_TRIP_INFO (_payload trip_info_message)
  /\ decode trip_info_message
     = Ok (Some [("uptime_s", VInt 236); ("trip_distance_m", VInt 10000);
                 ("frame_temperature", VFloat 23%float)])
  /\ Specified.decode_TRIP_INFO (_payload trip_info_message) = Raise struct_error.
Proof.
  assert (decode trip_info_message
          = Ok (Some [("uptime_s", VInt 236); ("trip_distance_m", VInt 10000);
                      ("frame_temperature", VFloat 23%float)])) as Hcode
    by (vm_compute; reflexivity).
  assert (Specified.decode_TRIP_INFO (_payload trip_info_message) = Raise struct_error)
    as Hspec by (vm_compute; reflexivity).
  split; [|split; assumption].
  rewrite Hcode, Hspec. discriminate.
Qed.

(** ** C5: the cell voltages *)

Lemma decode_BATTERY_CELL_VOLTAGES payload raw :
  length payload = 27%nat ->
  let cell i := VFloat (py_truediv (le_uint (bytes_slice payload (2 * i) (2 * i + 2))) 100) in
  decode {| _attribute := BATTERY_CELL_VOLTAGES; _payload := payload; _raw_bytes := raw |}
  = Ok (Some [("cell_1_voltage", cell 0%nat); ("cell_2_voltage", cell 1%nat);
              ("cell_3_voltage", cell 2%nat); ("cell_4_voltage", cell 3%nat);
              ("cell_5_voltage", cell 4%nat); ("cell_6_voltage", cell 5%nat);
              ("cell_7_voltage", cell 6%nat); ("cell_8_voltage", cell 7%nat);
              ("cell_9_voltage", cell 8%nat); ("cell_10_voltage", cell 9%nat)]).
Proof.
  intros H. explode_payload 27 payload H.
  unpack_fields. reflexivity.
Qed.

(** C5, as the code has it. A [BATTERY_CELL_VOLTAGES] message whose first
    cell word is [0x102d] (bytes [2d 10]) decodes with
    [cell_1_voltage == 41.41]: 4141 divided by 100. *)
Theorem cell_1_voltage_of_102d payload raw :
  length payload = 27%nat ->
  le_uint (bytes_slice payload 0 2) = 0x102d ->
  exists result,
    decode {| _attribute := BATTERY_CELL_VOLTAGES; _payload := payload;
              _raw_bytes := raw |} = Ok (Some result)
    /\ dict_get result "cell_1_voltage" = Ok (VFloat 41.41%float).
Proof.
  intros Hlen Hcell.
  rewrite (decode_BATTERY_CELL_VOLTAGES payload raw Hlen).
  eexists. split; [reflexivity|].
  cbn [dict_get String.eqb Ascii.eqb Bool.eqb]. cbn [Nat.mul Nat.add].
  rewrite Hcell. vm_compute. reflexivity.
Qed.

Lemma cell_1_voltage_of_102d_witness :
  exists result,
    decode cell_voltages_message = Ok (Some result)
    /\ dict_get result "cell_1_voltage" = Ok (VFloat 41.41%float).
Proof.
  apply (cell_1_voltage_of_102d cell_voltages_payload []); reflexivity.
Defined.

(** C5, as stated, fails: on the payload of the comment, first cell word
    [0x102d], the first cell voltage is 41.41, which Python's [==] tells
    apart from 41.65. *)
Lemma cell_1_voltage_is_not_41_65 :
  le_uint (bytes_slice cell_voltages_payload 0 2) = 0x102d
  /\ exists result f,
       decode cell_voltages_message = Ok (Some result)
       /\ dict_get result "cell_1_voltage" = Ok (VFloat f)
       /\ f = 41.41%float
       /\ PrimFloat.eqb f 41.65%float = false.
Proof.
  split; [reflexivity|].
  eexists. eexists. split; [vm_compute; reflexivity|].
  split; [reflexivity|]. split; reflexivity.
Qed.

(** ** Merging a field map into the state *)

Lemma merge_cons k v result st :
  merge ((k, v) :: result) st = merge result (<[k := v]> st).
Proof. reflexivity. Qed.

Lemma merge_lookup_other result : forall st k,
  ~ In k (keys result) -> merge result st !! k = st !! k.
Proof.
  induction result as [|[k' v] result IH]; intros st k Hk; [reflexivity|].
  rewrite merge_cons, IH by (intros Hin; apply Hk; right; exact Hin).
  apply lookup_insert_ne. intros ->. apply Hk. left. reflexivity.
Qed.

Lemma merge_is_Some result : forall st k,
  is_Some (merge result st !! k) <-> In k (keys result) \/ is_Some (st !! k).
Proof.
  induction result as [|[k' v] result IH]; intros st k.
  - cbn. tauto.
  - rewrite merge_cons, IH. unfold keys. cbn [map fst].
    destruct (decide (k' = k)) as [->|Hne].
    + rewrite lookup_insert_eq. split; [intros _; left; left; reflexivity|].
      intros _. right. eexists; reflexivity.
    + rewrite lookup_insert_ne by exact Hne. cbn. intuition congruence.
Qed.

(** ** C8: the serialised state *)

Lemma key_le_total : Total M365State.key_le.
Proof.
  intros a b. unfold M365State.key_le. apply String.leb_total.
Qed.

Lemma to_json_Permutation (st : gmap string PyValue) :
  M365State.to_json st ≡ₚ map_to_list st.
Proof. apply merge_sort_Permutation. Qed.

(** C8, as the code has it. The serialised state is one flat object with
    its members in sorted key order, no key twice, holding exactly the
    entries of the instance dictionary: the fields some merge has
    written, with their last value. A declared slot that no merge has
    populated is left out, so a fresh state serialises to the empty
    object. *)
Theorem to_json_members (st : gmap string PyValue) :
  Sorted M365State.key_le (M365State.to_json st)
  /\ NoDup (keys (M365State.to_json st))
  /\ (forall k v, In (k, v) (M365State.to_json st) <-> st !! k = Some v)
  /\ (forall result k,
        In k (keys (M365State.to_json (merge result st)))
        <-> In k (keys result) \/ In k (keys (M365State.to_json st)))
  /\ M365State.to_json M365State.new = [].
Proof.
  assert (forall (d : gmap string PyValue) k v,
             In (k, v) (M365State.to_json d) <-> d !! k = Some v) as Hmem.
  { intros d k v. rewrite <- list_elem_of_In, to_json_Permutation.
    apply elem_of_map_to_list. }
  assert (forall (d : gmap string PyValue) k,
             In k (keys (M365State.to_json d)) <-> is_Some (d !! k)) as Hkeys.
  { intros d k. unfold keys. rewrite in_map_iff. split.
    - intros [[k' v] [<- Hin]]. apply Hmem in Hin. eexists; exact Hin.
    - intros [v Hv]. exists (k, v). split; [reflexivity|]. apply Hmem. exact Hv. }
  split; [apply (@Sorted_merge_sort _ M365State.key_le _ key_le_total)|].
  split.
  { unfold keys. change (map fst (M365State.to_json st)) with ((M365State.to_json st).*1).
    rewrite to_json_Permutation. apply NoDup_fst_map_to_list. }
  split; [apply Hmem|].
  split.
  { intros result k. rewrite !Hkeys. apply merge_is_Some. }
  unfold M365State.to_json, M365State.new. rewrite map_to_list_empty. reflexivity.
Qed.

(** C8, as stated, fails: the fresh state serialises without any entry,
    so the declared slot [speed_kmh] does not appear as unknown, and after
    a tail-light message the document has that one member only. *)
Lemma to_json_omits_unset_slots :
  In "speed_kmh" (keys M365State.class_attributes)
  /\ ~ In "speed_kmh" (keys (M365State.to_json (state (connect true))))
  /\ M365State.to_json (state (connect true)) = []
  /\ M365State.to_json
       (state (fst (handle_message Sample.light_message (connect true))))
     = [("is_tail_light_on", VBool true)].
Proof.
  assert (M365State.to_json (state (connect true)) = []) as Hnew
    by (vm_compute; reflexivity).
  split; [cbn; tauto|]. split; [rewrite Hnew; intros []|].
  split; [exact Hnew|].
  vm_compute. reflexivity.
Qed.

(** ** C10: the keys the decoder writes *)

Lemma bind_Ok {A B} (c : Exc A) (k : A -> Exc B) b :
  bind c k = Ok b -> exists a, c = Ok a /\ k a = Ok b.
Proof. destruct c as [a|e]; cbn; [eauto|discriminate]. Qed.

Lemma keys_combine (names : list string) : forall (values : list PyValue),
  length names = length values -> keys (combine names values) = names.
Proof.
  induction names as [|n names IH]; intros [|v values] Hl; try discriminate; [reflexivity|].
  cbn. f_equal. apply IH. injection Hl as Hl. exact Hl.
Qed.

Lemma keys_unpack_to_dict fields t result :
  unpack_to_dict fields t = Ok result -> keys result = split_ws fields.
Proof.
  unfold unpack_to_dict.
  destruct (length (split_ws fields) =? length t)%nat eqn:Hl; [|discriminate].
  intros [= <-]. apply keys_combine. apply Nat.eqb_eq. exact Hl.
Qed.

Lemma keys_dict_set_present d k v' :
  (exists v, dict_get d k = Ok v) -> keys (dict_set d k v') = keys d.
Proof.
  induction d as [|[k0 v0] d IH]; cbn; intros [v Hv]; [discriminate|].
  destruct (String.eqb k0 k); [reflexivity|].
  cbn. f_equal. apply IH. eauto.
Qed.

Lemma keys_dict_update d k f d' :
  dict_update d k f = Ok d' -> keys d' = keys d.
Proof.
  unfold dict_update. intros H.
  apply bind_Ok in H as (v & Hv & H). apply bind_Ok in H as (v' & _ & H).
  injection H as <-. apply keys_dict_set_present. eauto.
Qed.

Lemma keys_dict_map_values f : forall d d',
  dict_map_values f d = Ok d' -> keys d' = keys d.
Proof.
  induction d as [|[k v] d IH]; cbn; intros d' H.
  - injection H as <-. reflexivity.
  - apply bind_Ok in H as (v' & _ & H). apply bind_Ok in H as (rest & Hrest & H).
    injection H as <-. cbn. f_equal. apply IH. exact Hrest.
Qed.

Ltac invert_binds :=
  repeat match goal with
         | H : bind _ _ = Ok _ |- _ => apply bind_Ok in H as (? & ? & H)
         end.

Ltac chain_keys :=
  repeat match goal with
         | H : dict_update _ _ _ = Ok _ |- _ => apply keys_dict_update in H
         | H : dict_map_values _ _ = Ok _ |- _ => apply keys_dict_map_values in H
         | H : unpack_to_dict _ _ = Ok _ |- _ => apply keys_unpack_to_dict in H
         end;
  repeat match goal with
         | H : keys _ = _ |- _ => rewrite H; clear H
         end.

(** Whatever the payload, a field map that [decode] returns has the keys
    of its attribute. *)
Lemma decode_keys message result :
  decode message = Ok (Some result) ->
  keys result = field_names (_attribute message).
Proof.
  unfold decode. intros H.
  destruct (_attribute message); invert_binds; try discriminate H;
    injection H as <-; chain_keys; vm_compute; reflexivity.
Qed.

Lemma declared_slots_not_decoded a k :
  k = "is_light_on" \/ k = "is_in_cruise_mode" -> ~ In k (field_names a).
Proof.
  intros Hk Hin.
  destruct a; cbn in Hin; destruct Hk as [-> | ->];
    repeat (destruct Hin as [Hin|Hin]; [discriminate Hin|]); exact Hin.
Qed.

Lemma handle_message_declared_slots message w w' o :
  declared_slots_unset w ->
  handle_message message w = (w', o) ->
  declared_slots_unset w'.
Proof.
  intros [Hl Hc] Hh.
  destruct (decode message) as [[result|]|e] eqn:Hd.
  - destruct (handle_message_decoded message w result Hd) as (w2 & Hw2 & Hst & _).
    rewrite Hw2 in Hh. injection Hh as <- _.
    pose proof (decode_keys _ _ Hd) as Hk.
    unfold declared_slots_unset. rewrite Hst.
    rewrite !merge_lookup_other
      by (rewrite Hk; apply declared_slots_not_decoded; auto).
    split; assumption.
  - rewrite (handle_message_unhandled _ _ Hd) in Hh. injection Hh as <- _.
    split; assumption.
  - rewrite (handle_message_raise _ _ _ Hd) in Hh. injection Hh as <- _.
    split; assumption.
Qed.

Section Session.

Variable parse_from_bytes : bytes -> ParseStatus * option Message.

Lemma handle_parsed_declared_slots message w w' o :
  declared_slots_unset w ->
  handle_parsed message w = (w', o) ->
  declared_slots_unset w'.
Proof.
  destruct message as [m|]; cbn; intros Hw Hh.
  - eapply handle_message_declared_slots; eassumption.
  - injection Hh as <- _. exact Hw.
Qed.

Lemma scan_declared_slots fuel data : forall i w w' o,
  declared_slots_unset w ->
  scan parse_from_bytes fuel data i w = Some (w', o) ->
  declared_slots_unset w'.
Proof.
  induction fuel as [|fuel IH]; intros i w w' o Hw Hs; [discriminate|].
  cbn [scan] in Hs.
  destruct (nth_error (disjointed_messages w) i) as [prev_data|];
    [|injection Hs as <- _; exact Hw].
  destruct (parse_from_bytes (prev_data ++ data)) as [[| |] message];
    try (eapply IH; eassumption).
  destruct (handle_parsed message w) as [w1 [[]|e]] eqn:Hh.
  - eapply IH; [|exact Hs].
    apply handle_parsed_declared_slots in Hh; [|exact Hw]. exact Hh.
  - injection Hs as <- _. eapply handle_parsed_declared_slots; eassumption.
Qed.

Lemma handleNotification_declared_slots data w w' o :
  declared_slots_unset w ->
  handleNotification parse_from_bytes data w = Some (w', o) ->
  declared_slots_unset w'.
Proof.
  unfold handleNotification. intros Hw Hn.
  destruct (length data =? 0)%nat; [injection Hn as <- _; exact Hw|].
  destruct (parse_from_bytes data) as [[| |] message].
  - injection Hn as Hn. eapply handle_parsed_declared_slots; eassumption.
  - injection Hn as <- _. exact Hw.
  - eapply scan_declared_slots; eassumption.
Qed.

Lemma deliver_declared_slots notifications : forall w,
  declared_slots_unset w ->
  exists w', deliver parse_from_bytes notifications w = Some w'
             /\ declared_slots_unset w'.
Proof.
  induction notifications as [|data rest IH]; intros w Hw; cbn [deliver].
  - exists w. split; [reflexivity|exact Hw].
  - destruct (handleNotification_returns parse_from_bytes data w) as [[w1 o] Hn].
    rewrite Hn. apply IH. eapply handleNotification_declared_slots; eassumption.
Qed.

End Session.

Lemma getattr_unset_slot (st : gmap string PyValue) name :
  st !! name = None ->
  M365State.getattr st name
  = match dict_get M365State.class_attributes name with
    | Ok v => Ok v
    | Raise _ => Raise AttributeError
    end.
Proof. intros H. unfold M365State.getattr. rewrite H. reflexivity. Qed.

(** C10. Whatever the frame parser and the notifications of a session,
    the session runs to its end and the declared slots [is_light_on] and
    [is_in_cruise_mode] still read as [None], the value of the class:
    no branch of the decoder writes them. [TAIL_LIGHT] and [CRUISE]
    messages store their flags under [is_tail_light_on] and
    [is_cruise_on], names the class does not declare. *)
Theorem declared_light_and_cruise_slots_stay_unknown
    (parse_from_bytes : bytes -> ParseStatus * option Message)
    (callback : bool) (notifications : list bytes) :
  (exists w,
      deliver parse_from_bytes notifications (connect callback) = Some w
      /\ M365State.getattr (state w) "is_light_on" = Ok VNone
      /\ M365State.getattr (state w) "is_in_cruise_mode" = Ok VNone)
  /\ (forall b rest raw,
        decode {| _attribute := TAIL_LIGHT; _payload := b :: rest; _raw_bytes := raw |}
        = Ok (Some [("is_tail_light_on", VBool (byte_to_Z b =? 0x02))]))
  /\ (forall b rest raw,
        decode {| _attribute := CRUISE; _payload := b :: rest; _raw_bytes := raw |}
        = Ok (Some [("is_cruise_on", VBool (byte_to_Z b =? 0x01))]))
  /\ dict_get M365State.class_attributes "is_tail_light_on" = Raise KeyError
  /\ dict_get M365State.class_attributes "is_cruise_on" = Raise KeyError.
Proof.
  split; [|repeat split; reflexivity].
  destruct (deliver_declared_slots parse_from_bytes notifications (connect callback))
    as (w & Hw & Hl & Hc).
  { split; apply lookup_empty. }
  exists w. split; [exact Hw|].
  rewrite (getattr_unset_slot _ _ Hl), (getattr_unset_slot _ _ Hc).
  split; reflexivity.
Qed.

(** ** C1: the scan after a first match *)

(** C1 fails on the code. With three pending fragments of which the
    first and the third are completed by the incoming buffer, the loop
    handles the message of the first, deletes it, and goes on: the
    fragment that moved into the freed position is stepped over, the
    third one is tried with the same buffer, and its message is handled
    and the fragment deleted as well. Two messages are acted on for one
    buffer. *)
Theorem second_match_is_also_acted_on
    (parse_from_bytes : bytes -> ParseStatus * option Message)
    data f0 f1 f2 m0 m2 r0 r2 w :
  data <> [] ->
  fst (parse_from_bytes data) = INVALID_HEADER ->
  disjointed_messages w = [f0; f1; f2] ->
  parse_from_bytes (f0 ++ data)%list = (OK, Some m0) ->
  parse_from_bytes (f2 ++ data)%list = (OK, Some m2) ->
  decode m0 = Ok (Some r0) ->
  decode m2 = Ok (Some r2) ->
  _callback w = true ->
  exists w',
    handleNotification parse_from_bytes data w = Some (w', Ok tt)
    /\ calls w' = (calls w ++ [(m0, r0); (m2, r2)])%list
    /\ state w' = merge r2 (merge r0 (state w))
    /\ disjointed_messages w' = [f1].
Proof.
  intros Hdata Hinv Hpending Hp0 Hp2 Hd0 Hd2 Hcb.
  destruct (handle_message_decoded m0 w r0 Hd0)
    as (w1 & Hh1 & Hst1 & Hcalls1 & Hfr1 & Hcb1).
  set (w1' := set_disjointed_messages (delete 0%nat (disjointed_messages w1)) w1).
  destruct (handle_message_decoded m2 w1' r2 Hd2)
    as (w2 & Hh2 & Hst2 & Hcalls2 & Hfr2 & Hcb2).
  exists (set_disjointed_messages (delete 1%nat (disjointed_messages w2)) w2).
  assert (disjointed_messages w1' = [f1; f2]) as Hl1.
  { unfold w1'. cbn. rewrite Hfr1, Hpending. reflexivity. }
  split.
  - unfold handleNotification.
    destruct data as [|b data]; [congruence|]. cbn [length Nat.eqb].
    destruct (parse_from_bytes (b :: data)) as [status message].
    cbn in Hinv. subst status.
    rewrite Hpending. cbn [length scan].
    rewrite Hpending. cbn [nth_error]. rewrite Hp0. cbn [handle_parsed].
    rewrite Hh1. fold w1'. rewrite Hl1. cbn [nth_error]. rewrite Hp2.
    cbn [handle_parsed]. rewrite Hh2.
    cbn [disjointed_messages set_disjointed_messages].
    rewrite Hfr2, Hl1. reflexivity.
  - cbn. rewrite Hst2, Hcalls2, Hfr2, Hl1.
    unfold w1'. cbn. rewrite Hcb1, Hcb, Hcalls1, Hcb, Hst1, <- app_assoc.
    repeat split.
Qed.

Lemma second_match_is_also_acted_on_witness :
  exists w',
    handleNotification Sample.parse_from_bytes Sample.light_tail
      (set_disjointed_messages
         [Sample.light_head; Sample.cruise_head; Sample.light_head] (connect true))
    = Some (w', Ok tt)
    /\ calls w' = [(Sample.light_message, [("is_tail_light_on", VBool true)]);
                   (Sample.light_message, [("is_tail_light_on", VBool true)])]
    /\ disjointed_messages w' = [Sample.cruise_head].
Proof.
  destruct (second_match_is_also_acted_on Sample.parse_from_bytes Sample.light_tail
              Sample.light_head Sample.cruise_head Sample.light_head
              Sample.light_message Sample.light_message
              [("is_tail_light_on", VBool true)] [("is_tail_light_on", VBool true)]
              (set_disjointed_messages
                 [Sample.light_head; Sample.cruise_head; Sample.light_head]
                 (connect true)))
    as (w' & H1 & H2 & _ & H4); try reflexivity.
  - discriminate.
  - exists w'. repeat split; assumption.
Defined.

(** * Further properties of the module *)

(** ** [phex] *)

Lemma append_empty_r (s : string) : s ++ "" = s.
Proof.
  induction s as [|c s IH]; [reflexivity|].
  change (String c (s ++ "") = String c s). f_equal. exact IH.
Qed.

Lemma concat_empty_cons x xs :
  String.concat "" (x :: xs) = x ++ String.concat "" xs.
Proof.
  destruct xs as [|y xs]; cbn [String.concat].
  - symmetry. apply append_empty_r.
  - reflexivity.
Qed.

Lemma format_02x_byte b :
  format_02x (byte_to_Z b)
  = String (hex_digit (byte_to_Z b / 16)) (String (hex_digit (byte_to_Z b mod 16)) "").
Proof.
  apply String.eqb_eq.
  apply (below_by_enumeration
           (fun v => String.eqb (format_02x v)
                       (String (hex_digit (v / 16)) (String (hex_digit (v mod 16)) "")))
           0 256); [vm_compute; reflexivity|].
  pose proof (byte_to_Z_range b). lia.
Qed.

Lemma phex_cons b s :
  phex (b :: s)
  = String "/" (String "x" (String (hex_digit (byte_to_Z b / 16))
                              (String (hex_digit (byte_to_Z b mod 16)) (phex s)))).
Proof.
  unfold phex. cbn [map]. rewrite concat_empty_cons, format_02x_byte. reflexivity.
Qed.


Lemma byte_to_Z_inj a b : byte_to_Z a = byte_to_Z b -> a = b.
Proof.
  unfold byte_to_Z. intros H. apply N2Z.inj in H.
  pose proof (Byte.of_to_N a) as Ha. rewrite H, Byte.of_to_N in Ha.
  congruence.
Qed.

Lemma hex_digits_inj u v :
  0 <= u < 256 -> 0 <= v < 256 ->
  hex_digit (u / 16) = hex_digit (v / 16) ->
  hex_digit (u mod 16) = hex_digit (v mod 16) ->
  u = v.
Proof.
  intros Hu Hv H1 H2.
  assert (forall p q, 0 <= p < 16 -> 0 <= q < 16 -> hex_digit p = hex_digit q -> p = q)
    as Hinj.
  { intros p q Hp Hq Hpq. apply Z.eqb_eq.
    pose proof (below_by_enumeration
                  (fun p => forallb (fun k => implb (Ascii.eqb (hex_digit p)
                                                       (hex_digit (Z.of_nat k)))
                                                    (p =? Z.of_nat k))
                              (seq 0 16)) 0 16) as Hall.
    specialize (Hall ltac:(vm_compute; reflexivity) p ltac:(lia)).
    pose proof (below_by_enumeration
                  (fun q => implb (Ascii.eqb (hex_digit p) (hex_digit q)) (p =? q))
                  0 16 Hall q ltac:(lia)) as Hq'.
    cbv beta in Hq'. rewrite Hpq, Ascii.eqb_refl in Hq'. exact Hq'. }
  assert (u / 16 = v / 16).
  { apply Hinj; [| |exact H1].
    - split; [apply Z.div_pos; lia|apply Z.div_lt_upper_bound; lia].
    - split; [apply Z.div_pos; lia|apply Z.div_lt_upper_bound; lia]. }
  assert (u mod 16 = v mod 16).
  { apply Hinj; [apply Z.mod_pos_bound; lia|apply Z.mod_pos_bound; lia|exact H2]. }
  rewrite (Z.div_mod u 16), (Z.div_mod v 16) by lia. congruence.
Qed.

(** X2. The dump is unambiguous: two byte strings with the same dump
    are equal. *)
Theorem phex_injective (a b : bytes) : phex a = phex b -> a = b.
Proof.
  revert b. induction a as [|x a IH]; intros [|y b] H.
  - reflexivity.
  - rewrite phex_cons in H. discriminate H.
  - rewrite phex_cons in H. discriminate H.
  - rewrite !phex_cons in H. injection H as H1 H2 H3.
    f_equal; [|apply IH; exact H3].
    apply byte_to_Z_inj.
    apply hex_digits_inj; auto using byte_to_Z_range.
Qed.

Lemma phex_injective_witness :
  [Byte.x02; Byte.x00] = [Byte.x02; Byte.x00].
Proof.
  apply (phex_injective [Byte.x02; Byte.x00] [Byte.x02; Byte.x00]). reflexivity.
Defined.

(** ** The layouts of the other branches *)

(** X3. The one-word attributes: [DISTANCE_LEFT], [SPEED] and
    [BATTERY_VOLTAGE] are an unsigned word divided by 100,
    [BATTERY_CURRENT] a signed word divided by 100, [BATTERY_PERCENT]
    the unsigned word as it is. *)
Theorem one_word_layouts (b0 b1 : byte) raw :
  let message a := {| _attribute := a; _payload := [b0; b1]; _raw_bytes := raw |} in
  decode (message DISTANCE_LEFT)
  = Ok (Some [("distance_left_km", VFloat (py_truediv (le_uint [b0; b1]) 100))])
  /\ decode (message SPEED)
     = Ok (Some [("speed_kmh", VFloat (py_truediv (le_uint [b0; b1]) 100))])
  /\ decode (message BATTERY_VOLTAGE)
     = Ok (Some [("battery_voltage", VFloat (py_truediv (le_uint [b0; b1]) 100))])
  /\ decode (message BATTERY_CURRENT)
     = Ok (Some [("battery_current", VFloat (py_truediv (le_sint [b0; b1]) 100))])
  /\ decode (message BATTERY_PERCENT)
     = Ok (Some [("battery_percent", VInt (le_uint [b0; b1]))]).
Proof.
  cbv zeta. repeat split; unpack_fields; reflexivity.
Qed.

Lemma le_uint_slice_range payload lo hi :
  0 <= le_uint (bytes_slice payload lo hi) < 256 ^ Z.of_nat (hi - lo).
Proof.
  pose proof (le_uint_range (bytes_slice payload lo hi)) as H.
  assert (length (bytes_slice payload lo hi) <= hi - lo)%nat as Hl.
  { unfold bytes_slice. rewrite length_firstn. lia. }
  assert (256 ^ Z.of_nat (length (bytes_slice payload lo hi)) <= 256 ^ Z.of_nat (hi - lo))
    by (apply Z.pow_le_mono_r; lia).
  lia.
Qed.

(** X4. [BATTERY_INFO] takes ten bytes: capacity (u16, /1000), percent
    (u16), current (i16, /100), voltage (u16, /100) and two temperature
    bytes, each lowered by 20, so the temperatures lie between -20 and
    235. *)
Theorem battery_info_layout payload raw :
  length payload = 10%nat ->
  let t1 := le_uint (bytes_slice payload 8 9) - 20 in
  let t2 := le_uint (bytes_slice payload 9 10) - 20 in
  decode {| _attribute := BATTERY_INFO; _payload := payload; _raw_bytes := raw |}
  = Ok (Some [("battery_capacity",
               VFloat (py_truediv (le_uint (bytes_slice payload 0 2)) 1000));
              ("battery_percent", VInt (le_uint (bytes_slice payload 2 4)));
              ("battery_current",
               VFloat (py_truediv (le_sint (bytes_slice payload 4 6)) 100));
              ("battery_voltage",
               VFloat (py_truediv (le_uint (bytes_slice payload 6 8)) 100));
              ("battery_temperature_1", VInt t1);
              ("battery_temperature_2", VInt t2)])
  /\ -20 <= t1 <= 235 /\ -20 <= t2 <= 235.
Proof.
  intros H t1 t2. split.
  - subst t1 t2. explode_payload 10 payload H. unpack_fields. reflexivity.
  - pose proof (le_uint_slice_range payload 8 9) as H1.
    pose proof (le_uint_slice_range payload 9 10) as H2.
    change (256 ^ Z.of_nat (9 - 8)) with 256 in H1.
    change (256 ^ Z.of_nat (10 - 9)) with 256 in H2.
    subst t1 t2. lia.
Qed.

Lemma battery_info_layout_witness :
  decode {| _attribute := BATTERY_INFO;
            _payload := [Byte.x78; Byte.x1e; Byte.x5f; Byte.x00; Byte.x9c; Byte.xff;
                         Byte.x10; Byte.x0e; Byte.x2d; Byte.x2e];
            _raw_bytes := [] |}
  = Ok (Some [("battery_capacity", VFloat 7.8%float);
              ("battery_percent", VInt 95);
              ("battery_current", VFloat (-1)%float);
              ("battery_voltage", VFloat 36%float);
              ("battery_temperature_1", VInt 25);
              ("battery_temperature_2", VInt 26)]).
Proof.
  apply (battery_info_layout
           [Byte.x78; Byte.x1e; Byte.x5f; Byte.x00; Byte.x9c; Byte.xff;
            Byte.x10; Byte.x0e; Byte.x2d; Byte.x2e] []).
  reflexivity.
Defined.

(** X5. [MOTOR_INFO] takes 32 bytes: seven unsigned words (error,
    warning, flags, workmode, battery percent, speed and average speed,
    the two speeds divided by 100), the odometer as u32 at offset 14
    divided by 1000, then trip distance, uptime and frame temperature as
    signed words at offsets 18, 20 and 22 (the temperature divided by 10);
    the last eight bytes are not read. *)
Theorem motor_info_layout payload raw :
  length payload = 32%nat ->
  let u16 o := le_uint (bytes_slice payload o (o + 2)) in
  let i16 o := le_sint (bytes_slice payload o (o + 2)) in
  decode {| _attribute := MOTOR_INFO; _payload := payload; _raw_bytes := raw |}
  = Ok (Some [("error", VInt (u16 0%nat));
              ("warning", VInt (u16 2%nat));
              ("flags", VInt (u16 4%nat));
              ("workmode", VInt (u16 6%nat));
              ("battery_percent", VInt (u16 8%nat));
              ("speed_kmh", VFloat (py_truediv (u16 10%nat) 100));
              ("speed_average_kmh", VFloat (py_truediv (u16 12%nat) 100));
              ("odometer_km",
               VFloat (py_truediv (le_uint (bytes_slice payload 14 18)) 1000));
              ("trip_distance_m", VInt (i16 18%nat));
              ("uptime_s", VInt (i16 20%nat));
              ("frame_temperature", VFloat (py_truediv (i16 22%nat) 10))]).
Proof.
  intros H. explode_payload 32 payload H. cbv zeta. unpack_fields. reflexivity.
Qed.

Lemma motor_info_layout_witness :
  exists result,
    decode {| _attribute := MOTOR_INFO; _payload := repeat Byte.x01 32;
              _raw_bytes := [] |} = Ok (Some result)
    /\ dict_get result "odometer_km" = Ok (VFloat 16843.009%float)
    /\ dict_get result "uptime_s" = Ok (VInt 257).
Proof.
  eexists. split.
  - apply (motor_info_layout (repeat Byte.x01 32) []). reflexivity.
  - split; vm_compute; reflexivity.
Defined.

Lemma distance_since_startup_layout_helper payload raw :
  (8 <= length payload)%nat ->
  decode {| _attribute := DISTANCE_SINCE_STARTUP; _payload := payload;
            _raw_bytes := raw |}
  = Ok (Some [("distance_since_startup_km",
               VFloat (py_truediv (le_uint (bytes_slice payload 6 8)) 1000))]).
Proof.
  intros H.
  do 8 (destruct payload as [|? payload]; [cbn in H; lia|]).
  unfold decode. cbn [_attribute _payload].
  change (bytes_slice _ 6 8) with [b5; b6].
  erewrite unpack_sized; [|vm_compute; reflexivity|reflexivity].
  cbn [bind struct.unpack_codes struct.value struct.size firstn skipn app].
  erewrite unpack_to_dict_names; [|vm_compute; reflexivity|reflexivity].
  reflexivity.
Qed.

(** X6. [DISTANCE_SINCE_STARTUP] reads the word at bytes 6 and 7 of a
    payload of eight bytes or more and divides it by 1000; what comes
    before and after is not looked at, whatever its length. *)
Theorem distance_since_startup_layout payload raw rest :
  length payload = 8%nat ->
  decode {| _attribute := DISTANCE_SINCE_STARTUP; _payload := (payload ++ rest)%list;
            _raw_bytes := raw |}
  = Ok (Some [("distance_since_startup_km",
               VFloat (py_truediv (le_uint (bytes_slice payload 6 8)) 1000))]).
Proof.
  intros H.
  rewrite distance_since_startup_layout_helper by (rewrite length_app; lia).
  explode_payload 8 payload H. reflexivity.
Qed.

Lemma distance_since_startup_layout_witness :
  decode {| _attribute := DISTANCE_SINCE_STARTUP;
            _payload := [Byte.x00; Byte.x00; Byte.x00; Byte.x00; Byte.x00; Byte.x00;
                         Byte.xe8; Byte.x03; Byte.xff];
            _raw_bytes := [] |}
  = Ok (Some [("distance_since_startup_km", VFloat 1%float)]).
Proof.
  apply (distance_since_startup_layout
           [Byte.x00; Byte.x00; Byte.x00; Byte.x00; Byte.x00; Byte.x00;
            Byte.xe8; Byte.x03] [] [Byte.xff]).
  reflexivity.
Defined.

(** ** When the decoder goes through *)

Tactic Notation "decodes_by_layout" integer(n) ident(payload) hyp(H) :=
  apply Nat.eqb_eq in H;
  do n (destruct payload as [|? payload]; [discriminate H|]);
  (destruct payload; [|discriminate H]);
  unpack_fields; eexists; reflexivity.

(** X7. For an attribute of the catalog the decoder returns a field map
    exactly when the payload length fits the layout, with one more
    condition for [GENERAL_INFO]: a version word of [0x0100] at least. *)
Theorem decode_succeeds_iff message :
  in_catalog (_attribute message) = true ->
  (exists result, decode message = Ok (Some result))
  <-> payload_fits (_attribute message) (length (_payload message)) = true
      /\ (_attribute message = GENERAL_INFO ->
          0x0100 <= le_uint (bytes_slice (_payload message) 20 22)).
Proof.
  intros Hcat. split.
  - intros [result Hres].
    destruct (payload_fits (_attribute message) (length (_payload message))) eqn:Hfit.
    + split; [reflexivity|]. intros Ha.
      destruct message as [a payload raw]. cbn [_attribute _payload] in *. subst a.
      apply Nat.eqb_eq in Hfit.
      destruct (Z_lt_le_dec (le_uint (bytes_slice payload 20 22)) 0x100) as [Hlow|Hhigh];
        [|exact Hhigh].
      pose proof (version_word_range payload).
      rewrite (decode_GENERAL_INFO payload raw Hfit), render_version_low in Hres by lia.
      discriminate.
    + rewrite (decode_payload_mismatch message Hfit) in Hres. discriminate.
  - intros [Hfit Hver].
    destruct message as [a payload raw]. cbn [_attribute _payload] in *.
    destruct a; cbn [payload_fits in_catalog] in *; try discriminate.
    + decodes_by_layout 2 payload Hfit.
    + decodes_by_layout 2 payload Hfit.
    + apply Nat.leb_le in Hfit.
      rewrite (distance_since_startup_layout_helper payload raw Hfit).
      eexists; reflexivity.
    + destruct payload; [discriminate|]. eexists; reflexivity.
    + destruct payload; [discriminate|]. eexists; reflexivity.
    + decodes_by_layout 10 payload Hfit.
    + decodes_by_layout 2 payload Hfit.
    + decodes_by_layout 2 payload Hfit.
    + decodes_by_layout 2 payload Hfit.
    + apply Nat.eqb_eq in Hfit.
      pose proof (version_word_range payload).
      destruct (render_version_high (le_uint (bytes_slice payload 20 22))) as [v Hv];
        [specialize (Hver eq_refl); lia|].
      rewrite (decode_GENERAL_INFO payload raw Hfit), Hv. eexists; reflexivity.
    + decodes_by_layout 32 payload Hfit.
    + decodes_by_layout 10 payload Hfit.
    + apply Nat.eqb_eq in Hfit.
      rewrite (decode_BATTERY_CELL_VOLTAGES payload raw Hfit). eexists; reflexivity.
Qed.

Lemma decode_succeeds_iff_witness :
  exists result, decode Sample.light_message = Ok (Some result).
Proof.
  apply (decode_succeeds_iff Sample.light_message); [reflexivity|].
  split; [reflexivity|discriminate].
Defined.

Lemma field_names_NoDup a : NoDup (field_names a).
Proof.
  destruct a; cbn [field_names]; apply (bool_decide_unpack _); vm_compute; reflexivity.
Qed.

(** X8. The keys of a decoded field map depend on the attribute alone,
    not on the payload, and no key occurs twice. *)
Theorem decoded_keys_are_fixed message result :
  decode message = Ok (Some result) ->
  keys result = field_names (_attribute message) /\ NoDup (keys result).
Proof.
  intros H. apply decode_keys in H. split; [exact H|].
  rewrite H. apply field_names_NoDup.
Qed.

Lemma decoded_keys_are_fixed_witness :
  keys [("is_tail_light_on", VBool true)] = ["is_tail_light_on"]
  /\ NoDup (keys [("is_tail_light_on", VBool true)]).
Proof.
  apply (decoded_keys_are_fixed Sample.light_message). reflexivity.
Defined.

(** ** What a handled message leaves in the state *)

Lemma merge_lookup_in result : forall st k v,
  NoDup (keys result) -> In (k, v) result -> merge result st !! k = Some v.
Proof.
  induction result as [|[k' v'] result IH]; intros st k v Hnd Hin; [destruct Hin|].
  unfold keys in Hnd. cbn [map fst] in Hnd. apply NoDup_cons in Hnd as [Hk' Hnd].
  rewrite merge_cons. destruct Hin as [[= -> ->]|Hin].
  - rewrite merge_lookup_other; [apply lookup_insert_eq|].
    intros Hin. apply Hk'. apply list_elem_of_In. exact Hin.
  - apply IH; assumption.
Qed.

(** X9. When the decoder returns a field map, [handle_message] returns
    normally, every pair of the map can be read from the state
    afterwards, every name that is not a field of the attribute keeps what
    it had, and the callback, when one is set, is called once, with the
    message and the map. *)
Theorem handle_message_stores_fields message w result :
  decode message = Ok (Some result) ->
  exists w',
    handle_message message w = (w', Ok tt)
    /\ (forall k v, In (k, v) result -> state w' !! k = Some v)
    /\ (forall k, ~ In k (field_names (_attribute message)) ->
                  state w' !! k = state w !! k)
    /\ calls w' = (if _callback w then calls w ++ [(message, result)] else calls w)%list
    /\ disjointed_messages w' = disjointed_messages w.
Proof.
  intros Hd.
  destruct (handle_message_decoded message w result Hd)
    as (w' & Hh & Hst & Hcalls & Hfr & _).
  pose proof (decode_keys _ _ Hd) as Hk.
  exists w'. split; [exact Hh|]. repeat split; try assumption.
  - intros k v Hin. rewrite Hst. apply merge_lookup_in; [|exact Hin].
    rewrite Hk. apply field_names_NoDup.
  - intros k Hin. rewrite Hst. apply merge_lookup_other. rewrite Hk. exact Hin.
Qed.

Lemma handle_message_stores_fields_witness :
  exists w',
    handle_message Sample.light_message (connect true) = (w', Ok tt)
    /\ state w' !! "is_tail_light_on" = Some (VBool true)
    /\ state w' !! "speed_kmh" = None
    /\ calls w' = [(Sample.light_message, [("is_tail_light_on", VBool true)])].
Proof.
  destruct (handle_message_stores_fields Sample.light_message (connect true)
              [("is_tail_light_on", VBool true)])
    as (w' & H1 & H2 & H3 & H4 & _); [reflexivity|].
  exists w'. split; [exact H1|]. split; [apply H2; left; reflexivity|].
  split; [|exact H4].
  rewrite H3; [reflexivity|]. cbn. intros [H|[]]. discriminate H.
Defined.

(** X10. Last writer wins: after two messages handled one after the
    other, a field of the second holds the value of the second, whatever
    the first wrote, and a field of the first that the second does not
    have still holds the value of the first. *)
Theorem later_message_overwrites message1 message2 result1 result2 w :
  decode message1 = Ok (Some result1) ->
  decode message2 = Ok (Some result2) ->
  exists w1 w2,
    handle_message message1 w = (w1, Ok tt)
    /\ handle_message message2 w1 = (w2, Ok tt)
    /\ (forall k v, In (k, v) result2 -> state w2 !! k = Some v)
    /\ (forall k v, In (k, v) result1 -> ~ In k (keys result2) ->
                    state w2 !! k = Some v).
Proof.
  intros Hd1 Hd2.
  destruct (handle_message_decoded message1 w result1 Hd1) as (w1 & Hh1 & Hst1 & _).
  destruct (handle_message_decoded message2 w1 result2 Hd2) as (w2 & Hh2 & Hst2 & _).
  pose proof (decode_keys _ _ Hd1) as Hk1. pose proof (decode_keys _ _ Hd2) as Hk2.
  exists w1, w2. repeat split; try assumption.
  - intros k v Hin. rewrite Hst2. apply merge_lookup_in; [|exact Hin].
    rewrite Hk2. apply field_names_NoDup.
  - intros k v Hin Hnot. rewrite Hst2, merge_lookup_other, Hst1 by exact Hnot.
    apply merge_lookup_in; [|exact Hin]. rewrite Hk1. apply field_names_NoDup.
Qed.

Lemma later_message_overwrites_witness :
  exists w1 w2,
    handle_message
      {| _attribute := BATTERY_INFO;
         _payload := [Byte.x78; Byte.x1e; Byte.x5f; Byte.x00; Byte.x9c; Byte.xff;
                      Byte.x10; Byte.x0e; Byte.x2d; Byte.x2e];
         _raw_bytes := [] |} (connect false) = (w1, Ok tt)
    /\ handle_message
         {| _attribute := BATTERY_PERCENT; _payload := [Byte.x5e; Byte.x00];
            _raw_bytes := [] |} w1 = (w2, Ok tt)
    /\ state w2 !! "battery_percent" = Some (VInt 94)
    /\ state w2 !! "battery_temperature_1" = Some (VInt 25).
Proof.
  destruct (later_message_overwrites
              {| _attribute := BATTERY_INFO;
                 _payload := [Byte.x78; Byte.x1e; Byte.x5f; Byte.x00; Byte.x9c; Byte.xff;
                              Byte.x10; Byte.x0e; Byte.x2d; Byte.x2e];
                 _raw_bytes := [] |}
              {| _attribute := BATTERY_PERCENT; _payload := [Byte.x5e; Byte.x00];
                 _raw_bytes := [] |}
              [("battery_capacity", VFloat 7.8%float);
               ("battery_percent", VInt 95);
               ("battery_current", VFloat (-1)%float);
               ("battery_voltage", VFloat 36%float);
               ("battery_temperature_1", VInt 25);
               ("battery_temperature_2", VInt 26)]
              [("battery_percent", VInt 94)] (connect false))
    as (w1 & w2 & H1 & H2 & H3 & H4); [vm_compute; reflexivity|vm_compute; reflexivity|].
  exists w1, w2. split; [exact H1|]. split; [exact H2|]. split.
  - apply H3. left. reflexivity.
  - apply H4; [cbn; tauto|]. cbn. intros [H|[]]. discriminate H.
Defined.



(** ** Reading the state *)

Lemma dict_get_class_attribute name :
  (In name (keys M365State.class_attributes) ->
   dict_get M365State.class_attributes name = Ok VNone)
  /\ (~ In name (keys M365State.class_attributes) ->
      dict_get M365State.class_attributes name = Raise KeyError).
Proof.
  generalize M365State.class_attributes
             (eq_refl : forallb (fun kv => match snd kv with VNone => true | _ => false end)
                          M365State.class_attributes = true).
  intros d. induction d as [|[k v] d IH]; cbn [forallb snd]; intros Hall.
  - split; [intros []|reflexivity].
  - apply andb_prop in Hall as [Hv Hall]. destruct v; try discriminate.
    specialize (IH Hall) as [IH1 IH2]. cbn [dict_get keys map fst].
    destruct (String.eqb_spec k name) as [->|Hne].
    + split; [reflexivity|]. intros Hnot. exfalso. apply Hnot. left. reflexivity.
    + split.
      * intros [Heq|Hin]; [congruence|]. apply IH1. exact Hin.
      * intros Hnot. apply IH2. intros Hin. apply Hnot. right. exact Hin.
Qed.

(** X12. Attribute access on the state: a field a handled message has
    decoded reads back with the decoded value, which shadows the [None]
    of the class. *)
Theorem decoded_field_reads_back message w result k v :
  decode message = Ok (Some result) ->
  In (k, v) result ->
  M365State.getattr (state (fst (handle_message message w))) k = Ok v.
Proof.
  intros Hd Hin.
  destruct (handle_message_decoded message w result Hd) as (w' & Hh & Hst & _).
  rewrite Hh. cbn [fst]. unfold M365State.getattr.
  rewrite Hst, (merge_lookup_in result (state w) k v); [reflexivity| |exact Hin].
  rewrite (decode_keys _ _ Hd). apply field_names_NoDup.
Qed.

Lemma decoded_field_reads_back_witness :
  M365State.getattr (state (fst (handle_message Sample.light_message (connect true))))
    "is_tail_light_on" = Ok (VBool true).
Proof.
  apply (decoded_field_reads_back Sample.light_message (connect true)
           [("is_tail_light_on", VBool true)]); [reflexivity|].
  left. reflexivity.
Defined.

(** X13. On a state no message has written to, each of the fourteen
    slots the class declares reads as [None], while [is_tail_light_on]
    and [is_cruise_on], the names the decoder stores the light and cruise
    flags under, raise [AttributeError]: they exist only once a message of
    that kind was handled. *)
Theorem fresh_state_attributes name :
  (In name (keys M365State.class_attributes) ->
   M365State.getattr M365State.new name = Ok VNone)
  /\ length M365State.class_attributes = 14%nat
  /\ M365State.getattr M365State.new "is_tail_light_on" = Raise AttributeError
  /\ M365State.getattr M365State.new "is_cruise_on" = Raise AttributeError.
Proof.
  destruct (dict_get_class_attribute name) as [H1 _].
  unfold M365State.getattr, M365State.new. rewrite !lookup_empty.
  split; [intros H; rewrite (H1 H); reflexivity|].
  split; [reflexivity|]. split; reflexivity.
Qed.

Lemma fresh_state_attributes_witness :
  M365State.getattr M365State.new "is_light_on" = Ok VNone.
Proof.
  apply (fresh_state_attributes "is_light_on"). cbn. tauto.
Defined.

(** ** The scan over the pending fragments *)

Lemma handle_message_set_disjointed message l w :
  handle_message message (set_disjointed_messages l w)
  = (set_disjointed_messages l (fst (handle_message message w)),
     snd (handle_message message w)).
Proof.
  unfold handle_message.
  destruct (decode message) as [[result|]|e]; cbn; try reflexivity.
  destruct (_callback w); reflexivity.
Qed.

Lemma set_disjointed_messages_same w :
  set_disjointed_messages (disjointed_messages w) w = w.
Proof. destruct w; reflexivity. Qed.

Section Scan.

Variable parse_from_bytes : bytes -> ParseStatus * option Message.
Variable data : bytes.

Lemma completes_none_from_Forall i pending :
  Forall (fun f => fst (parse_from_bytes (f ++ data)%list) <> OK) (skipn i pending) ->
  completes_none_from parse_from_bytes data i pending.
Proof.
  intros Hall j f Hij Hj. rewrite Forall_forall in Hall. apply Hall.
  apply list_elem_of_In.
  apply (nth_error_In _ (j - i)). rewrite nth_error_skipn.
  replace (i + (j - i))%nat with j by lia. exact Hj.
Qed.

Lemma scan_completes_none fuel : forall i w,
  (length (disjointed_messages w) - i < fuel)%nat ->
  completes_none_from parse_from_bytes data i (disjointed_messages w) ->
  scan parse_from_bytes fuel data i w = Some (w, Ok tt).
Proof.
  induction fuel as [|fuel IH]; intros i w Hlen Hnone; [lia|].
  cbn [scan].
  destruct (nth_error (disjointed_messages w) i) as [prev_data|] eqn:Hi;
    [|reflexivity].
  assert (i < length (disjointed_messages w))%nat as Hlt
    by (apply nth_error_Some; congruence).
  pose proof (Hnone i prev_data (Nat.le_refl i) Hi) as Hno.
  assert (scan parse_from_bytes fuel data (S i) w = Some (w, Ok tt)) as Hrest.
  { apply IH; [lia|]. intros j f Hj. apply Hnone. lia. }
  destruct (parse_from_bytes (prev_data ++ data)) as [[| |] message];
    [exfalso; apply Hno; reflexivity|exact Hrest|exact Hrest].
Qed.


Lemma scan_shrinks fuel : forall i w w' o,
  scan parse_from_bytes fuel data i w = Some (w', o) ->
  sublist (disjointed_messages w') (disjointed_messages w)
  /\ _callback w' = _callback w.
Proof.
  induction fuel as [|fuel IH]; intros i w w' o Hs; [discriminate|].
  cbn [scan] in Hs.
  destruct (nth_error (disjointed_messages w) i) as [prev_data|];
    [|injection Hs as <- _; split; reflexivity].
  destruct (parse_from_bytes (prev_data ++ data)) as [[| |] message];
    try (eapply IH; eassumption).
  destruct (handle_parsed message w) as [w1 [[]|e]] eqn:Hh;
    apply handle_parsed_frame in Hh as [Hd Hc].
  - apply IH in Hs as [Hsub Hcb]. cbn in Hsub, Hcb. split; [|congruence].
    etransitivity; [exact Hsub|]. rewrite Hd. apply sublist_delete.
  - injection Hs as <- _. rewrite Hd. split; [reflexivity|exact Hc].
Qed.

(** X14. A buffer with an invalid header that completes none of the
    pending fragments is dropped without a trace: no message is handled,
    and the state, the callback record, the log and the pending fragments
    are what they were. *)
Theorem unmatched_buffer_is_dropped w :
  fst (parse_from_bytes data) = INVALID_HEADER ->
  Forall (fun f => fst (parse_from_bytes (f ++ data)%list) <> OK)
         (disjointed_messages w) ->
  handleNotification parse_from_bytes data w = Some (w, Ok tt).
Proof.
  intros Hinv Hall. unfold handleNotification.
  destruct (length data =? 0)%nat; [reflexivity|].
  destruct (parse_from_bytes data) as [status message]. cbn in Hinv. subst status.
  apply scan_completes_none; [lia|].
  apply completes_none_from_Forall. exact Hall.
Qed.

Lemma scan_step fuel i w prev_data :
  nth_error (disjointed_messages w) i = Some prev_data ->
  scan parse_from_bytes (S fuel) data i w
  = match parse_from_bytes (prev_data ++ data)%list with
    | (OK, message) =>
        match handle_parsed message w with
        | (w', Raise e) => Some (w', Raise e)
        | (w', Ok _) =>
            scan parse_from_bytes fuel data (S i)
              (set_disjointed_messages (delete i (disjointed_messages w')) w')
        end
    | _ => scan parse_from_bytes fuel data (S i) w
    end.
Proof. intros H. cbn [scan]. rewrite H. reflexivity. Qed.





End Scan.

Lemma unmatched_buffer_is_dropped_witness :
  handleNotification Sample.parse_from_bytes Sample.light_tail
    (set_disjointed_messages [Sample.cruise_head] (connect true))
  = Some (set_disjointed_messages [Sample.cruise_head] (connect true), Ok tt).
Proof.
  apply (unmatched_buffer_is_dropped Sample.parse_from_bytes Sample.light_tail
           (set_disjointed_messages [Sample.cruise_head] (connect true)));
    [reflexivity|].
  repeat constructor. vm_compute. discriminate.
Defined.




(** ** Sessions *)

Lemma Forall_sublist_of {A} (P : A -> Prop) (l1 l2 : list A) :
  sublist l1 l2 -> Forall P l2 -> Forall P l1.
Proof.
  intros Hsub Hall. rewrite Forall_forall in *. intros x Hx.
  apply Hall. eapply elem_of_sublist; eassumption.
Qed.

Section Sessions.

Variable parse_from_bytes : bytes -> ParseStatus * option Message.

Lemma handleNotification_pending_well_formed data w w' o :
  pending_well_formed parse_from_bytes w ->
  handleNotification parse_from_bytes data w = Some (w', o) ->
  pending_well_formed parse_from_bytes w' /\ _callback w' = _callback w.
Proof.
  unfold pending_well_formed, handleNotification. intros Hw Hn.
  destruct data as [|b rest] eqn:Edata; [injection Hn as <- _; split; auto|].
  cbn [length Nat.eqb] in Hn. rewrite <- Edata in *.
  destruct (parse_from_bytes data) as [[| |] message] eqn:Hp.
  - injection Hn as Hn. apply handle_parsed_frame in Hn as [-> ->]. split; auto.
  - injection Hn as <- _. cbn. split; [|reflexivity].
    apply Forall_app. split; [exact Hw|].
    constructor; [|constructor]. split; [congruence|]. rewrite Hp. reflexivity.
  - apply scan_shrinks in Hn as [Hsub Hcb]. split; [|exact Hcb].
    eapply Forall_sublist_of; eassumption.
Qed.

(** X18. Through a whole session, started with nothing pending, every
    pending fragment is a non-empty buffer that the parser classified as
    disjointed when it arrived: nothing else ever enters the list. The
    session runs to its end whatever is delivered (the scan terminates
    although it deletes from the list it iterates), and the callback
    setting never changes. *)
Theorem session_keeps_only_disjointed_fragments notifications : forall w,
  pending_well_formed parse_from_bytes w ->
  exists w',
    deliver parse_from_bytes notifications w = Some w'
    /\ pending_well_formed parse_from_bytes w'
    /\ _callback w' = _callback w.
Proof.
  induction notifications as [|data rest IH]; intros w Hw; cbn [deliver].
  - exists w. repeat split. exact Hw.
  - destruct (handleNotification_returns parse_from_bytes data w) as [[w1 o] Hn].
    rewrite Hn.
    destruct (handleNotification_pending_well_formed data w w1 o Hw Hn) as [Hw1 Hcb].
    destruct (IH w1 Hw1) as (w' & Hd & Hw' & Hcb').
    exists w'. repeat split; [exact Hd|exact Hw'|congruence].
Qed.

(** X19. A frame that arrives in two deliveries, the first classified
    disjointed and the second with an invalid header, leaves the driver
    exactly as the whole frame in one delivery does, when nothing else is
    pending and the message is handled without an exception: same state,
    same callback record, same log, nothing pending. *)
Theorem split_frame_same_as_whole f data message w :
  f <> [] -> data <> [] ->
  fst (parse_from_bytes f) = DISJOINTED ->
  fst (parse_from_bytes data) = INVALID_HEADER ->
  parse_from_bytes (f ++ data)%list = (OK, Some message) ->
  disjointed_messages w = [] ->
  snd (handle_message message w) = Ok tt ->
  deliver parse_from_bytes [f; data] w = deliver parse_from_bytes [(f ++ data)%list] w
  /\ deliver parse_from_bytes [f; data] w = Some (fst (handle_message message w)).
Proof.
  intros Hf Hdata Hpf Hpd Hp Hnil Hok.
  assert (forall l : bytes, l <> [] -> (length l =? 0)%nat = false) as Hlen
    by (intros [|? ?] ?; [congruence|reflexivity]).
  assert (deliver parse_from_bytes [(f ++ data)%list] w
          = Some (fst (handle_message message w))) as Hwhole.
  { cbn [deliver]. unfold handleNotification.
    rewrite Hlen by (intros E; apply app_eq_nil in E as [? _]; congruence).
    rewrite Hp. cbn [handle_parsed].
    destruct (handle_message message w); reflexivity. }
  assert (deliver parse_from_bytes [f; data] w
          = Some (fst (handle_message message w))) as Hsplit.
  { cbn [deliver]. unfold handleNotification at 1. rewrite (Hlen f Hf).
    destruct (parse_from_bytes f) as [sf mf]. cbn in Hpf. subst sf.
    unfold handleNotification. rewrite (Hlen data Hdata).
    destruct (parse_from_bytes data) as [sd md]. cbn in Hpd. subst sd.
    rewrite Hnil. cbn [app length disjointed_messages set_disjointed_messages].
    rewrite (scan_step _ _ _ _ _ f) by reflexivity.
    rewrite Hp. cbn [handle_parsed]. rewrite handle_message_set_disjointed, Hok.
    cbn [scan nth_error delete disjointed_messages set_disjointed_messages].
    pose proof (handle_message_frame message w _ _
                  (surjective_pairing (handle_message message w))) as [Hd _].
    rewrite Hnil in Hd.
    destruct (handle_message message w) as [w1 o1]. cbn [fst snd] in *.
    destruct w1; cbn in *; subst; reflexivity. }
  split; [rewrite Hwhole|]; exact Hsplit.
Qed.

End Sessions.

Lemma session_keeps_only_disjointed_fragments_witness :
  exists w',
    deliver Sample.parse_from_bytes
      [Sample.light_head; Sample.cruise_head; Sample.light_tail] (connect true)
    = Some w'
    /\ pending_well_formed Sample.parse_from_bytes w'.
Proof.
  destruct (session_keeps_only_disjointed_fragments Sample.parse_from_bytes
              [Sample.light_head; Sample.cruise_head; Sample.light_tail] (connect true))
    as (w' & H1 & H2 & _).
  - constructor.
  - exists w'. split; assumption.
Defined.

Lemma split_frame_same_as_whole_witness :
  deliver Sample.parse_from_bytes [Sample.light_head; Sample.light_tail] (connect true)
  = deliver Sample.parse_from_bytes [(Sample.light_head ++ Sample.light_tail)%list]
      (connect true).
Proof.
  apply (split_frame_same_as_whole Sample.parse_from_bytes Sample.light_head
           Sample.light_tail Sample.light_message (connect true));
    try reflexivity; discriminate.
Defined.

(** ** [M365._find_characteristic] *)

(** X20. [_find_characteristic] returns the first characteristic of the
    list with the UUID asked for, and [None] exactly when no characteristic
    has it. *)
Theorem find_characteristic_is_first_match uuid chars :
  match M365._find_characteristic uuid chars with
  | Some c =>
      exists before after,
        chars = (before ++ c :: after)%list
        /\ btle.uuid c = uuid
        /\ Forall (fun x => btle.uuid x <> uuid) before
  | None => Forall (fun x => btle.uuid x <> uuid) chars
  end.
Proof.
  unfold M365._find_characteristic.
  induction chars as [|x chars IH]; cbn [List.filter]; [constructor|].
  destruct (String.eqb_spec (btle.uuid x) uuid) as [Heq|Hne].
  - exists [], chars. repeat split; [exact Heq|constructor].
  - destruct (List.filter (fun x => String.eqb (btle.uuid x) uuid) chars) as [|c l].
    + constructor; assumption.
    + destruct IH as (before & after & -> & Hc & Hall).
      exists (x :: before), after. repeat split; [exact Hc|].
      constructor; assumption.
Qed.

Example find_tx_characteristic :
  M365._find_characteristic M365.TX_CHARACTERISTIC sample_characteristics
  = Some {| btle.uuid := M365.TX_CHARACTERISTIC; btle.valHandle := 14 |}
  /\ M365._find_characteristic M365.TX_CHARACTERISTIC [] = None.
Proof. split; reflexivity. Qed.
